(** * School fee manager: fee resolution, payment aggregation, status

    A shallow embedding of the arithmetic that the dashboard pages of the
    fee manager run over the rows they fetch:

    - [MasterLedger]: [fetchStudentsAndDetails] (per-student totals),
      [getDynamicStatus] and [handleExport] of the master-ledger page;
    - [ManageStudents]: the fee lines built by [fetchStudents] of the
      student-registration page;
    - [Dashboard]: the payment sums of the dashboard page;
    - [RecordPayment]: [handleSubmitPayment] of the record-payment page;
    - [Registration]: the fee-type ticks, the stored total and the fee
      links of [handleSubmit], and the deletion dialog of the
      student-registration page.

    Amounts are JavaScript numbers coming from numeric columns: finite
    doubles.  A double is modelled as the rational it stands for ([Q]);
    equality of amounts is [Qeq].  Comparisons are exact on doubles, so
    the classifier and the colours are modelled as they are.  Additions
    and subtractions round: [MasterLedger] and [Dashboard] take them
    without rounding, which is enough for the statements that only
    compare totals; [Rounded] has the same loops with every operation
    rounded by a function [round], and [Doubles.roundDouble] is the
    rounding of IEEE 754 binary64.  A nullable column is an [option];
    [None] stands for [null]/[undefined]. *)

From Stdlib Require Import QArith Lqa Lia ZArith NArith List Bool.
From Stdlib Require Import Strings.String Strings.Ascii.
From Stdlib Require Import Sorting.Permutation.
Import ListNotations.

Local Open Scope Q_scope.

(** ** JavaScript operators on numbers *)

Module JS.

(** [x < y] on numbers. *)
Definition Qltb (x y : Q) : bool := negb (Qle_bool y x).

(** A number is truthy when it is not zero. *)
Definition truthy (x : Q) : bool := negb (Qeq_bool x 0).

(** [x || 0] where [x] is a number, [null] or [undefined]. *)
Definition or_zero (x : option Q) : Q :=
  match x with
  | Some q => if truthy q then q else 0
  | None => 0
  end.

(** [x || y] on numbers. *)
Definition or_num (x : option Q) (y : Q) : Q :=
  match x with
  | Some q => if truthy q then q else y
  | None => y
  end.

(** [x ?? y] on numbers. *)
Definition nullish (x : option Q) (y : Q) : Q :=
  match x with
  | Some q => q
  | None => y
  end.

(** [s || null] on strings: the empty string is falsy. *)
Definition str_or_null (s : option string) : option string :=
  match s with
  | Some EmptyString => None
  | other => other
  end.

(** [s] is truthy as a string: it is not empty. *)
Definition truthyText (s : string) : bool :=
  match s with
  | EmptyString => false
  | _ => true
  end.

(** [s.startsWith(p)] *)
Fixpoint isPrefix (p s : string) : bool :=
  match p, s with
  | EmptyString, _ => true
  | String a p', String b s' => Ascii.eqb a b && isPrefix p' s'
  | String _ _, EmptyString => false
  end.

(** [s.includes(term)] *)
Fixpoint includesText (s term : string) : bool :=
  isPrefix term s
  || match s with
     | EmptyString => false
     | String _ rest => includesText rest term
     end.

(** [new Set(l)] as the list of its elements in insertion order. *)
Definition setAdd (seen : list string) (x : string) : list string :=
  if existsb (String.eqb x) seen then seen else seen ++ [x].

Definition setOf (l : list string) : list string := fold_left setAdd l [].

End JS.

(** ** The master-ledger page *)

Module MasterLedger.

Import JS.

(** [Payment]: the columns of a payment row the ledger selects. *)
Record Payment := {
  date : string;
  amount_paid : Q;
  mode_of_payment : string;
  receipt_number : string
}.

(** [FeeTypeRow]: the joined fee type. *)
Record FeeTypeRow := {
  ft_id : string;
  ft_name : string;
  default_amount : option Q;
  scheduled_date : option string
}.

(** An element of [student_fee_types]: the link row with its joined fee
    type, which may be [null]. *)
Record StudentFeeType := {
  sft_id : option string;
  assigned_amount : option Q;
  discount : option Q;
  discount_description : option string;
  net_payable_amount : option Q;
  fee_type : option FeeTypeRow
}.

(** The [id] of a displayed line: the fee type's id, else the
    [sft-...] fall-back (which may draw a random number). *)
Inductive DetailId :=
| FeeTypeId (id : string)
| SftFallback (sft : option string).

Record FeeTypeDetail := {
  fd_id : DetailId;
  fd_name : string;
  fd_assigned_amount : Q;
  fd_discount : Q;
  net_payable : Q;
  fd_scheduled_date : option string
}.

Inductive FeeView := total | due.

Inductive Status := paid | partially_paid | unpaid | no_fees_due.

(** The student row as fetched. *)
Record StudentRow := {
  name : string;
  roll_no : option string;
  academic_year : option string;
  classes : option string;
  payments : option (list Payment);
  student_fee_types : option (list StudentFeeType)
}.

(** [StudentWithPayments]: the enriched row kept in the page state. *)
Record StudentWithPayments := {
  row : StudentRow;
  class_name : string;
  totalPaid : option Q;
  calculated_total_assigned_fees : Q;
  calculated_due_fees_total : Q;
  all_fee_details_for_display : list FeeTypeDetail
}.

(** *** Status classifier *)

Definition feesToConsider (feeViewType : FeeView) (student : StudentWithPayments) : Q :=
  match feeViewType with
  | total => calculated_total_assigned_fees student
  | due => calculated_due_fees_total student
  end.

Definition paidOf (student : StudentWithPayments) : Q :=
  or_zero (totalPaid student).

Definition getDynamicStatus (feeViewType : FeeView) (student : StudentWithPayments)
  : Status :=
  let fees := feesToConsider feeViewType student in
  let p := paidOf student in
  if Qle_bool fees (9 # 1000) then
    (if Qltb 0 p then paid else no_fees_due)
  else if Qle_bool fees p then paid
  else if Qltb 0 p && Qltb p fees then partially_paid
  else unpaid.

(** *** Payment aggregator

    [s.payments?.reduce((sum, p) => sum + p.amount_paid, 0) || 0], the
    additions taken without rounding; [Rounded.sumPayments] rounds each
    of them. *)

Definition sumPayments (ps : list Payment) : Q :=
  fold_left (fun sum p => sum + amount_paid p) ps 0.

Definition totalPaidOf (ps : option (list Payment)) : Q :=
  or_zero (option_map sumPayments ps).

(** *** Fee assignment resolver

    The body of the [map] over [student_fee_types] in
    [fetchStudentsAndDetails]; the two counters it updates are threaded
    through as an accumulator. *)

(** [feeTypeInfo?.default_amount] *)
Definition default_amount_of (feeTypeInfo : option FeeTypeRow) : option Q :=
  match feeTypeInfo with
  | Some ft => default_amount ft
  | None => None
  end.

(** [sft.assigned_amount ?? feeTypeInfo?.default_amount ?? 0] *)
Definition assignedAmount (sft : StudentFeeType) : Q :=
  nullish
    (match assigned_amount sft with
     | Some a => Some a
     | None => default_amount_of (fee_type sft)
     end) 0.

(** [sft.discount || 0] *)
Definition discountOf (sft : StudentFeeType) : Q := or_zero (discount sft).

Definition netPayableForThisFee (sft : StudentFeeType) : Q :=
  assignedAmount sft - discountOf sft.

(** Whether the line is added to the due counter: the joined fee type
    is present and its [scheduled_date] is falsy (absent or empty) or
    compares [<=] to [todayISO] as a string. *)
Definition countsAsDue (todayISO : string) (sft : StudentFeeType) : bool :=
  match fee_type sft with
  | Some feeTypeInfo =>
      match str_or_null (scheduled_date feeTypeInfo) with
      | Some d => String.leb d todayISO
      | None => true
      end
  | None => false
  end.

Definition detailOf (sft : StudentFeeType) : FeeTypeDetail :=
  {| fd_id := match fee_type sft with
              | Some ft =>
                  match ft_id ft with
                  | EmptyString => SftFallback (sft_id sft)
                  | id => FeeTypeId id
                  end
              | None => SftFallback (sft_id sft)
              end;
     fd_name := match fee_type sft with
                | Some ft =>
                    match ft_name ft with
                    | EmptyString => "Unknown Fee Type"%string
                    | n => n
                    end
                | None => "Unknown Fee Type"%string
                end;
     fd_assigned_amount := assignedAmount sft;
     fd_discount := discountOf sft;
     net_payable := netPayableForThisFee sft;
     fd_scheduled_date := match fee_type sft with
                          | Some ft => str_or_null (scheduled_date ft)
                          | None => None
                          end |}.

Record Totals := {
  calculated_total_assigned_fees_for_student : Q;
  calculated_due_fees_this_moment : Q;
  allFeeDetailsDisplay : list FeeTypeDetail
}.

Definition noTotals : Totals :=
  {| calculated_total_assigned_fees_for_student := 0;
     calculated_due_fees_this_moment := 0;
     allFeeDetailsDisplay := [] |}.

(** The body of the [map] over [student_fee_types]: the two [+=], taken
    without rounding; [Rounded.resolveStep] rounds them. *)
Definition resolveStep (todayISO : string) (acc : Totals) (sft : StudentFeeType)
  : Totals :=
  let net := netPayableForThisFee sft in
  {| calculated_total_assigned_fees_for_student :=
       calculated_total_assigned_fees_for_student acc + net;
     calculated_due_fees_this_moment :=
       if countsAsDue todayISO sft
       then calculated_due_fees_this_moment acc + net
       else calculated_due_fees_this_moment acc;
     allFeeDetailsDisplay := allFeeDetailsDisplay acc ++ [detailOf sft] |}.

(** [s.student_fee_types?.map(...) || []] with its two counters. *)
Definition resolveFees (todayISO : string) (sfts : option (list StudentFeeType))
  : Totals :=
  match sfts with
  | Some l => fold_left (resolveStep todayISO) l noTotals
  | None => noTotals
  end.

(** One element of [enrichedStudents]. *)
Definition enrich (todayISO : string) (s : StudentRow) : StudentWithPayments :=
  let t := resolveFees todayISO (student_fee_types s) in
  {| row := s;
     class_name := match str_or_null (classes s) with
                   | Some n => n
                   | None => "N/A"%string
                   end;
     totalPaid := Some (totalPaidOf (payments s));
     calculated_total_assigned_fees := calculated_total_assigned_fees_for_student t;
     calculated_due_fees_total := calculated_due_fees_this_moment t;
     all_fee_details_for_display := allFeeDetailsDisplay t |}.


(** *** CSV export

    A cell of an exported row is a string or [null] ([roll_no] and
    [receipt_number] are nullable); every other column is produced by
    [toFixed], [toLocaleDateString], [replace] or a string literal. *)

Definition Cell := option string.

Inductive LedgerView := class_view | school_view.

Definition viewName (v : LedgerView) : string :=
  match v with
  | class_view => "class"
  | school_view => "school"
  end.

Definition feeViewName (v : FeeView) : string :=
  match v with
  | total => "total"
  | due => "due"
  end.

Definition comma : ascii := ","%char.
Definition dquote : ascii := ascii_of_nat 34.
Definition newline : ascii := ascii_of_nat 10.

(** [s.includes(c)] for a one-character [c]. *)
Fixpoint includes (c : ascii) (s : string) : bool :=
  match s with
  | EmptyString => false
  | String a rest => Ascii.eqb a c || includes c rest
  end.

(** [(typeof c === 'string' && c.includes(',')) ? `"${c}"` : c] *)
Definition quoteCell (c : Cell) : Cell :=
  match c with
  | Some s =>
      if includes comma s
      then Some (String dquote (s ++ String dquote EmptyString))
      else Some s
  | None => None
  end.

(** What [Array.prototype.join] writes for an element: [null] and
    [undefined] become the empty string. *)
Definition cellText (c : Cell) : string :=
  match c with
  | Some s => s
  | None => EmptyString
  end.

Definition join (sep : string) (cells : list Cell) : string :=
  String.concat sep (map cellText cells).

Definition csvLine (r : list Cell) : string :=
  join (String comma EmptyString) (map quoteCell r).

(** [[header, ...rows].map(r => ...join(',')).join('\n')] *)
Definition csvOf (header : list Cell) (rows : list (list Cell)) : string :=
  String.concat (String newline EmptyString) (map csvLine (header :: rows)).

(** [s.split(c)[0]]: the text before the first [c]. *)
Fixpoint upTo (c : ascii) (s : string) : string :=
  match s with
  | EmptyString => EmptyString
  | String a rest => if Ascii.eqb a c then EmptyString else String a (upTo c rest)
  end.

(** [new Date().toISOString().split('T')[0]] for the instant whose ISO
    text is [nowISO]. *)
Definition isoDay (nowISO : string) : string := upTo "T"%char nowISO.

Definition downloadName (view : LedgerView) (selectedClassId : string)
           (feeViewType : FeeView) (nowISO : string) : string :=
  ("master-ledger-" ++ viewName view ++ "-"
     ++ match selectedClassId with
        | EmptyString => "all"
        | id => id
        end
     ++ "-" ++ feeViewName feeViewType ++ "-" ++ isoDay nowISO ++ ".csv")%string.

Inductive ExportOutcome :=
| NoData (error : string)
| Download (csv filename success : string).

Section CsvExport.

(** The header cells: the source elides them ([[ /* ... */ ]]). *)
Variable header : list Cell.

(** The twelve cells built for a student by the [rows] map. *)
Variable exportRow : FeeView -> StudentWithPayments -> list Cell.

Definition handleExport (view : LedgerView) (selectedClassId : string)
           (feeViewType : FeeView) (nowISO : string)
           (filteredStudentsForDisplay : list StudentWithPayments)
  : ExportOutcome :=
  match filteredStudentsForDisplay with
  | [] => NoData "No data to export."
  | _ =>
      Download
        (csvOf header (map (exportRow feeViewType) filteredStudentsForDisplay))
        (downloadName view selectedClassId feeViewType nowISO)
        "CSV exported successfully!"
  end.

End CsvExport.

(** *** Calendar dates as [YYYY-MM-DD] text

    The format the resolver assumes for [scheduled_date] and that
    [todayISO] has for years up to 9999. *)

Record CalendarDate := { year : N; month : N; day : N }.

Definition digit (n : N) : ascii := ascii_of_N (48 + n).

Definition pad2 (n : N) (rest : string) : string :=
  String (digit (n / 10 mod 10)) (String (digit (n mod 10)) rest).

Definition pad4 (n : N) (rest : string) : string :=
  String (digit (n / 1000 mod 10)) (String (digit (n / 100 mod 10)) (pad2 n rest)).

Definition isoDate (d : CalendarDate) : string :=
  pad4 (year d) (String "-" (pad2 (month d) (String "-" (pad2 (day d) EmptyString)))).

Definition wellFormedDate (d : CalendarDate) : Prop :=
  (year d < 10000 /\ month d < 100 /\ day d < 100)%N.

(** Calendar order: by year, then month, then day. *)
Definition dateCompare (d1 d2 : CalendarDate) : comparison :=
  match N.compare (year d1) (year d2) with
  | Eq =>
      match N.compare (month d1) (month d2) with
      | Eq => N.compare (day d1) (day d2)
      | c => c
      end
  | c => c
  end.

Definition onOrBefore (d1 d2 : CalendarDate) : bool :=
  match dateCompare d1 d2 with
  | Gt => false
  | _ => true
  end.

(** *** Search box

    [filteredStudentsForDisplay]; [toLowerCase] is the built-in. *)

Section Search.

Variable toLowerCase : string -> string.

(** The predicate of the [filter], for the lowered term. *)
Definition matchesSearch (term : string) (stu : StudentWithPayments) : bool :=
  if truthyText term then
    includesText (toLowerCase (name (row stu))) term
    || match roll_no (row stu) with
       | Some r => truthyText r && includesText (toLowerCase r) term
       | None => false
       end
    || (truthyText (class_name stu)
        && includesText (toLowerCase (class_name stu)) term)
  else true.

Definition filteredStudentsForDisplay (searchTerm : string)
           (students : list StudentWithPayments) : list StudentWithPayments :=
  filter (matchesSearch (toLowerCase searchTerm)) students.

End Search.

(** *** Balance column *)

(** [feesForCalc - (stu.totalPaid || 0)] *)
Definition balanceOf (feeViewType : FeeView) (stu : StudentWithPayments) : Q :=
  feesToConsider feeViewType stu - paidOf stu.

Inductive Tone := text_red | text_blue | text_gray.

(** The colour of a student's balance:
    [balance < -0.009 ? blue : balance > 0.009 ? red : gray]. *)
Definition studentBalanceTone (balance : Q) : Tone :=
  if Qltb balance (- (9 # 1000)) then text_blue
  else if Qltb (9 # 1000) balance then text_red
  else text_gray.

(** The colour of a class's balance:
    [d > 0.009 ? red : d < -0.009 ? blue : gray]. *)
Definition classBalanceTone (balance : Q) : Tone :=
  if Qltb (9 # 1000) balance then text_red
  else if Qltb balance (- (9 # 1000)) then text_blue
  else text_gray.

(** Whether the [(Adv)] mark follows the balance. *)
Definition showsAdvance (balance : Q) : bool := Qltb balance (- (9 # 1000)).

(** The label of the status column. *)
Definition statusText (s : Status) : string :=
  match s with
  | paid => "Paid"
  | partially_paid => "Partial"
  | unpaid => "Unpaid"
  | no_fees_due => "No Dues"
  end.

(** *** School overview: one row per class *)

Definition Status_eqb (a b : Status) : bool :=
  match a, b with
  | paid, paid | partially_paid, partially_paid
  | unpaid, unpaid | no_fees_due, no_fees_due => true
  | _, _ => false
  end.

Record ClassSummary := {
  className : string;
  groupSize : nat;
  totalFeesForClass : Q;
  totalPaidForClass : Q;
  studentsUnpaid : nat;
  studentsPartial : nat;
  studentsPaid : nat;
  studentsNoFeesDue : nat
}.

(** [filteredStudentsForDisplay.filter((s) => s.class_name === className)] *)
Definition groupOf (cls : string) (students : list StudentWithPayments)
  : list StudentWithPayments :=
  filter (fun s => String.eqb (class_name s) cls) students.

(** [group.filter(s => getDynamicStatus(s) === status).length] *)
Definition countStatus (feeViewType : FeeView) (status : Status)
           (group : list StudentWithPayments) : nat :=
  List.length
    (filter (fun s => Status_eqb (getDynamicStatus feeViewType s) status) group).

(** One row of the overview; the two class totals are [reduce]s of
    [+], taken without rounding. *)
Definition summaryOf (feeViewType : FeeView) (students : list StudentWithPayments)
           (cls : string) : ClassSummary :=
  let group := groupOf cls students in
  {| className := cls;
     groupSize := List.length group;
     totalFeesForClass :=
       fold_left (fun acc s => acc + feesToConsider feeViewType s) group 0;
     totalPaidForClass := fold_left (fun acc s => acc + paidOf s) group 0;
     studentsUnpaid := countStatus feeViewType unpaid group;
     studentsPartial := countStatus feeViewType partially_paid group;
     studentsPaid := countStatus feeViewType paid group;
     studentsNoFeesDue := countStatus feeViewType no_fees_due group |}.

Section Overview.

(** [.sort((a, b) => (a || "").localeCompare(b || ""))]: the order
    depends on the locale. *)
Variable sortNames : list string -> list string.

Definition classOverview (feeViewType : FeeView)
           (students : list StudentWithPayments) : list ClassSummary :=
  map (summaryOf feeViewType students)
      (sortNames (setOf (map class_name students))).

End Overview.

End MasterLedger.

(** ** The student-registration page *)

Module ManageStudents.

Import JS.
Import MasterLedger.

(** [sft.assigned_amount || sft.fee_type?.default_amount || 0] *)
Definition assigned_amount_of (sft : StudentFeeType) : Q :=
  or_num (assigned_amount sft) (or_zero (default_amount_of (fee_type sft))).

(** [sft.net_payable_amount ||
     ((sft.assigned_amount || sft.fee_type?.default_amount || 0) - (sft.discount || 0))] *)
Definition net_payable_amount_of (sft : StudentFeeType) : Q :=
  or_num (net_payable_amount sft)
         (assigned_amount_of sft - or_zero (discount sft)).

End ManageStudents.

(** ** The dashboard page *)

Module Dashboard.

Import JS.

(** A row of [payments(amount_paid)]. *)
Record PaymentAmount := { amount_paid : Q }.

(** [s.payments?.reduce((sum, p) => sum + p.amount_paid, 0) || 0] in
    [handleShowDetail], the additions taken without rounding;
    [Rounded.dashboardTotalPaid] rounds each of them. *)
Definition totalPaid (ps : option (list PaymentAmount)) : Q :=
  or_zero (option_map (fun l => fold_left (fun sum p => sum + amount_paid p) l 0) ps).

(** A row of [students] with its payments, as [handleShowDetail]
    selects it for the outstanding-fees view. *)
Record StudentFees := {
  sf_name : string;
  sf_roll_no : option string;
  sf_classes : option string;
  total_fees : option Q;
  payments : option (list PaymentAmount)
}.

(** [StudentFeeDetail]: a row of the outstanding-fees view. *)
Record StudentFeeDetail := {
  detail_of : StudentFees;
  class_name : string;
  paid : Q;
  outstanding : Q;
  status : string
}.

(** The status label computed for a row. *)
Definition studentStatus (s : StudentFees) : string :=
  let totalPaid := totalPaid (payments s) in
  if Qle_bool (or_zero (total_fees s)) (9 # 1000) then "No Dues"
  else if Qle_bool (or_zero (total_fees s)) totalPaid then "Paid"
  else if Qltb 0 totalPaid then "Partial"
  else "Unpaid".

(** [(s.total_fees || 0) - totalPaid] *)
Definition outstandingAmount (s : StudentFees) : Q :=
  or_zero (total_fees s) - totalPaid (payments s).

Definition detailRow (s : StudentFees) : StudentFeeDetail :=
  {| detail_of := s;
     class_name := match str_or_null (sf_classes s) with
                   | Some n => n
                   | None => "N/A"
                   end;
     paid := totalPaid (payments s);
     outstanding := outstandingAmount s;
     status := studentStatus s |}.

(** The rows of the outstanding-fees view:
    [studentsData?.map(...).filter(s => s.outstanding > 0.009) || []]. *)
Definition outstandingRows (studentsData : option (list StudentFees))
  : list StudentFeeDetail :=
  match studentsData with
  | Some l => filter (fun r => Qltb (9 # 1000) (outstanding r)) (map detailRow l)
  | None => []
  end.

End Dashboard.

(** ** The record-payment page *)

Module RecordPayment.

(** A JavaScript number as [Number(...)] and [parseFloat(...)] return
    it. *)
Inductive number :=
| NaN
| NegInf
| Fin (q : Q)
| PosInf.

Definition isNaN (n : number) : bool :=
  match n with
  | NaN => true
  | _ => false
  end.

(** [n <= 0] *)
Definition le_zero (n : number) : bool :=
  match n with
  | NaN => false
  | NegInf => true
  | Fin q => Qle_bool q 0
  | PosInf => false
  end.

Record StudentListItem := {
  id : string;
  name : string;
  roll_no : option string;
  class_id : option string;
  school_id : string
}.

(** [PaymentInsert]: the row handed to [insert]. *)
Record PaymentInsert := {
  pi_student_id : string;
  pi_school_id : string;
  pi_amount_paid : number;
  pi_date : string;
  pi_mode_of_payment : string;
  pi_description : option string;
  pi_receipt_number : string
}.

Inductive Toast :=
| toast_error (msg : string)
| toast_loading (msg : string)
| toast_success (msg : string).

(** The form state of the page. *)
Record Form := {
  selectedStudent : option StudentListItem;
  amountPaid : string;
  modeOfPayment : string;
  description : string;
  manualReceiptNumber : string;
  isSubmittingPayment : bool
}.

(** The page together with what it acts on: the [payments] table and
    the notifications shown. *)
Record World := {
  form : Form;
  payments : list PaymentInsert;
  toasts : list Toast
}.

(** How the backend answers the [insert]. *)
Inductive InsertAnswer :=
| inserted
| insert_error (message : string)
| insert_threw (message : string).

(** What one submission reads from outside the page. *)
Record Env := {
  schoolId : option string;
  now_ms : string;        (* [Date.now()] in decimal *)
  now_iso : string;       (* [new Date().toISOString()] *)
  answer : InsertAnswer
}.

Definition nonEmpty (s : string) : bool :=
  match s with
  | EmptyString => false
  | _ => true
  end.

Definition notify (t : Toast) (w : World) : World :=
  {| form := form w; payments := payments w; toasts := toasts w ++ [t] |}.

Section Handler.

(** The built-ins the handler calls on the entered text. *)
Variable Number : string -> number.
Variable parseFloat : string -> number.
Variable trim : string -> string.

(** [!amountPaid || isNaN(Number(amountPaid)) || Number(amountPaid) <= 0] *)
Definition invalidAmount (amountPaid : string) : bool :=
  negb (nonEmpty amountPaid)
  || isNaN (Number amountPaid)
  || le_zero (Number amountPaid).

Definition handleSubmitPayment (env : Env) (w : World) : World :=
  let f := form w in
  match selectedStudent f with
  | None => notify (toast_error "Please select a student.") w
  | Some stu =>
      match nonEmpty (id stu), schoolId env with
      | true, Some (String c s) =>
          let school := String c s in
          if invalidAmount (amountPaid f) then
            notify (toast_error "Enter a valid payment amount.") w
          else
            let generatedReceiptNumber :=
              if nonEmpty (trim (manualReceiptNumber f))
              then trim (manualReceiptNumber f)
              else ("R-" ++ now_ms env)%string in
            let paymentData :=
              {| pi_student_id := id stu;
                 pi_school_id := school;
                 pi_amount_paid := parseFloat (amountPaid f);
                 pi_date := now_iso env;
                 pi_mode_of_payment := modeOfPayment f;
                 pi_description :=
                   if nonEmpty (trim (description f))
                   then Some (trim (description f)) else None;
                 pi_receipt_number := generatedReceiptNumber |} in
            let loading := toasts w ++ [toast_loading "Recording payment..."] in
            match answer env with
            | inserted =>
                {| form := {| selectedStudent := selectedStudent f;
                              amountPaid := "";
                              modeOfPayment := "cash";
                              description := "";
                              manualReceiptNumber := "";
                              isSubmittingPayment := false |};
                   payments := payments w ++ [paymentData];
                   toasts := loading ++
                     [toast_success
                        ("Payment recorded. Receipt #: " ++ generatedReceiptNumber)] |}
            | insert_error message =>
                {| form := {| selectedStudent := selectedStudent f;
                              amountPaid := amountPaid f;
                              modeOfPayment := modeOfPayment f;
                              description := description f;
                              manualReceiptNumber := manualReceiptNumber f;
                              isSubmittingPayment := false |};
                   payments := payments w;
                   toasts := loading ++
                     [toast_error ("Failed to record payment: " ++ message)] |}
            | insert_threw message =>
                {| form := {| selectedStudent := selectedStudent f;
                              amountPaid := amountPaid f;
                              modeOfPayment := modeOfPayment f;
                              description := description f;
                              manualReceiptNumber := manualReceiptNumber f;
                              isSubmittingPayment := false |};
                   payments := payments w;
                   toasts := loading ++
                     [toast_error
                        (if nonEmpty message then message
                         else "An unexpected error occurred during payment.")] |}
            end
      | _, _ => notify (toast_error "School information is missing.") w
      end
  end.

End Handler.

(** An instance of the built-ins for running the handler on examples:
    it reads plain decimal text ([-]digits[.digits]) as [Number] and
    [parseFloat] do, and gives [NaN] on every other text. *)
Definition digitValue (c : ascii) : option Z :=
  let n := Z.of_N (N_of_ascii c) in
  if ((48 <=? n) && (n <=? 57))%Z then Some (n - 48)%Z else None.

Fixpoint readDigits (s : string) (acc : Z) (count : nat) : Z * nat * string :=
  match s with
  | EmptyString => (acc, count, EmptyString)
  | String c rest =>
      match digitValue c with
      | Some d => readDigits rest (10 * acc + d)%Z (S count)
      | None => (acc, count, s)
      end
  end.

Definition decimalNumber (s : string) : number :=
  let '(sign, body) :=
    match s with
    | String "-"%char rest => ((-1)%Z, rest)
    | _ => (1%Z, s)
    end in
  match readDigits body 0%Z 0%nat with
  | (ip, S _, EmptyString) => Fin (inject_Z (sign * ip))
  | (ip, S _, String "."%char frac) =>
      match readDigits frac 0%Z 0%nat with
      | (fp, S k, EmptyString) =>
          Fin (inject_Z sign * (inject_Z ip + (fp # Pos.of_nat (10 ^ S k))))
      | _ => NaN
      end
  | _ => NaN
  end.

(** [trim] on ASCII white space. *)
Definition isSpace (c : ascii) : bool :=
  match N_of_ascii c with
  | 9%N | 10%N | 11%N | 12%N | 13%N | 32%N => true
  | _ => false
  end.

Fixpoint trimStart (s : string) : string :=
  match s with
  | EmptyString => EmptyString
  | String c rest => if isSpace c then trimStart rest else s
  end.

Fixpoint trimEnd (s : string) : string :=
  match s with
  | EmptyString => EmptyString
  | String c rest =>
      match trimEnd rest with
      | EmptyString => if isSpace c then EmptyString else String c EmptyString
      | kept => String c kept
      end
  end.

Definition trimAscii (s : string) : string := trimEnd (trimStart s).

(** [handleStudentSelection]: picking a student in the list. *)
Definition handleStudentSelection (schoolId : option string)
           (student : StudentListItem) (w : World) : World :=
  let same := match schoolId with
              | Some sid => String.eqb (school_id student) sid
              | None => false
              end in
  if same then
    {| form := {| selectedStudent := Some student;
                  amountPaid := "";
                  modeOfPayment := "cash";
                  description := "";
                  manualReceiptNumber := "";
                  isSubmittingPayment := isSubmittingPayment (form w) |};
       payments := payments w;
       toasts := toasts w |}
  else
    {| form := {| selectedStudent := None;
                  amountPaid := amountPaid (form w);
                  modeOfPayment := modeOfPayment (form w);
                  description := description (form w);
                  manualReceiptNumber := manualReceiptNumber (form w);
                  isSubmittingPayment := isSubmittingPayment (form w) |};
       payments := payments w;
       toasts := toasts w
                 ++ [toast_error "Error: This student does not belong to your school."] |}.

Section StudentSearch.

Variable toLowerCase : string -> string.

(** The student list under the search box. *)
Definition filteredStudentList (searchTerm : string)
           (allStudentsInSchool : list StudentListItem) : list StudentListItem :=
  let lowerSearchTerm := toLowerCase searchTerm in
  if JS.truthyText lowerSearchTerm then
    filter (fun s =>
              JS.includesText (toLowerCase (name s)) lowerSearchTerm
              || match roll_no s with
                 | Some r => JS.truthyText r
                             && JS.includesText (toLowerCase r) lowerSearchTerm
                 | None => false
                 end)
           allStudentsInSchool
  else allStudentsInSchool.

End StudentSearch.

End RecordPayment.

(** ** The student-registration page: form and deletion *)

Module Registration.

Import JS.
Import MasterLedger.

(** [toggleFeeTypeSelection] (and [handleCheckboxToggle] of the
    fee-types page): tick or untick [id]. *)
Definition toggleFeeTypeSelection (id : string) (prev : list string) : list string :=
  if existsb (String.eqb id) prev
  then filter (fun fid => negb (String.eqb fid id)) prev
  else prev ++ [id].

(** An entry of [feeAdjustments]. *)
Record Adjustment := { adj_discount : Q; adj_description : string }.

(** [feeAdjustments]: an object keyed by fee type id. *)
Definition Adjustments := string -> option Adjustment.

(** [feeAdjustments[id]?.discount || 0] *)
Definition discountFor (feeAdjustments : Adjustments) (id : string) : Q :=
  or_zero (option_map adj_discount (feeAdjustments id)).

(** The [total_fees] written with the student:
    [sum + (ft.default_amount || 0) - disc] over the ticked fee types of
    the class, in double precision; [round] rounds a result to the
    nearest double. *)
Definition totalFeesCalculated (round : Q -> Q)
           (filteredFeeTypesForClass : list FeeTypeRow)
           (selectedFeeTypeIds : list string) (feeAdjustments : Adjustments) : Q :=
  fold_left
    (fun sum ft =>
       round (round (sum + or_zero (default_amount ft))
              - discountFor feeAdjustments (ft_id ft)))
    (filter (fun ft => existsb (String.eqb (ft_id ft)) selectedFeeTypeIds)
            filteredFeeTypesForClass)
    0.

(** [StudentFeeTypeInsertPayload] *)
Record StudentFeeTypeInsertPayload := {
  student_id : string;
  fee_type_id : string;
  school_id : string;
  link_assigned_amount : Q;
  link_discount : Q;
  link_discount_description : option string
}.

Section Links.

Variable trim : string -> string.

(** [feeLinksToInsert]: one link per ticked fee type. *)
Definition feeLinksToInsert (studentIdForFeeLinks schoolId : string)
           (filteredFeeTypesForClass : list FeeTypeRow)
           (selectedFeeTypeIds : list string) (feeAdjustments : Adjustments)
  : list StudentFeeTypeInsertPayload :=
  map (fun id =>
         let originalFee :=
           find (fun ft => String.eqb (ft_id ft) id) filteredFeeTypesForClass in
         {| student_id := studentIdForFeeLinks;
            fee_type_id := id;
            school_id := schoolId;
            link_assigned_amount := or_zero (default_amount_of originalFee);
            link_discount := discountFor feeAdjustments id;
            link_discount_description :=
              match feeAdjustments id with
              | Some a => if truthyText (trim (adj_description a))
                          then Some (trim (adj_description a)) else None
              | None => None
              end |})
      selectedFeeTypeIds.

End Links.

(** *** Deleting a student *)

Record StudentDisplay := {
  sd_id : string;
  sd_name : string;
  sd_school_id : string
}.

Record LinkRow := {
  lr_student_id : string;
  lr_school_id : string;
  lr_fee_type_id : string
}.

(** The two tables the deletion acts on. *)
Record Db := {
  students : list StudentDisplay;
  student_fee_types : list LinkRow
}.

Record Page := {
  deleteModalOpen : bool;
  deleteStudent : option StudentDisplay;
  confirmDeleteName : string;
  isSubmitting : bool;
  toasts : list RecordPayment.Toast
}.

(** How the backend answers one [delete()]: the matching rows are
    removed, or the call resolves with an error, or it throws. *)
Inductive DeleteAnswer :=
| deleted
| delete_error
| delete_threw (message : string).

Definition openDeleteModal (schoolId : option string) (student : StudentDisplay)
           (p : Page) : Page :=
  let same := match schoolId with
              | Some sid => String.eqb (sd_school_id student) sid
              | None => false
              end in
  if same then
    {| deleteModalOpen := true; deleteStudent := Some student;
       confirmDeleteName := ""; isSubmitting := isSubmitting p;
       toasts := toasts p |}
  else
    {| deleteModalOpen := deleteModalOpen p; deleteStudent := deleteStudent p;
       confirmDeleteName := confirmDeleteName p; isSubmitting := isSubmitting p;
       toasts := toasts p
                 ++ [RecordPayment.toast_error
                       "Cannot delete: Student does not belong to your school."] |}.

(** [.delete().eq('student_id', id).eq('school_id', schoolId)] *)
Definition deleteLinks (id schoolId : string) (rows : list LinkRow) : list LinkRow :=
  filter (fun r => negb (String.eqb (lr_student_id r) id
                         && String.eqb (lr_school_id r) schoolId)) rows.

(** [.delete().eq('id', id).eq('school_id', schoolId)] *)
Definition deleteStudentRows (id schoolId : string) (rows : list StudentDisplay)
  : list StudentDisplay :=
  filter (fun r => negb (String.eqb (sd_id r) id
                         && String.eqb (sd_school_id r) schoolId)) rows.

Definition withToast (t : RecordPayment.Toast) (p : Page) : Page :=
  {| deleteModalOpen := deleteModalOpen p; deleteStudent := deleteStudent p;
     confirmDeleteName := confirmDeleteName p; isSubmitting := isSubmitting p;
     toasts := toasts p ++ [t] |}.

(** [confirmDelete], given the answers to its two deletions. *)
Definition confirmDelete (schoolId : option string)
           (linksAnswer studentAnswer : DeleteAnswer) (p : Page) (db : Db)
  : Page * Db :=
  match deleteStudent p, schoolId with
  | Some stu, Some (String c sid) =>
      let school := String c sid in
      if String.eqb (confirmDeleteName p) (sd_name stu) then
        let loading := toasts p ++ [RecordPayment.toast_loading "Deleting student..."] in
        let failed message db' :=
          ({| deleteModalOpen := deleteModalOpen p; deleteStudent := deleteStudent p;
              confirmDeleteName := confirmDeleteName p; isSubmitting := false;
              toasts := loading
                        ++ [RecordPayment.toast_error
                              ("Failed to delete student: " ++ message)] |}, db') in
        match linksAnswer with
        | delete_threw message => failed message db
        | _ =>
            let links := match linksAnswer with
                         | deleted => deleteLinks (sd_id stu) school (student_fee_types db)
                         | _ => student_fee_types db
                         end in
            let db1 := {| students := students db; student_fee_types := links |} in
            match studentAnswer with
            | delete_threw message => failed message db1
            | _ =>
                let rows := match studentAnswer with
                            | deleted => deleteStudentRows (sd_id stu) school (students db)
                            | _ => students db
                            end in
                ({| deleteModalOpen := false; deleteStudent := None;
                    confirmDeleteName := ""; isSubmitting := false;
                    toasts := loading
                              ++ [RecordPayment.toast_success
                                    "Student deleted successfully!"] |},
                 {| students := rows; student_fee_types := links |})
            end
        end
      else (withToast (RecordPayment.toast_error "Student name does not match.") p, db)
  | Some stu, _ =>
      if String.eqb (confirmDeleteName p) (sd_name stu) then (p, db)
      else (withToast (RecordPayment.toast_error "Student name does not match.") p, db)
  | None, _ =>
      (withToast (RecordPayment.toast_error "Student name does not match.") p, db)
  end.

End Registration.

(** ** Double precision

    The sums of the pages are JavaScript additions: each one is rounded
    to the nearest double.  A double is the rational it stands for;
    [roundDouble] is the rounding (to nearest, ties to even, with the
    subnormal range; values beyond the largest double are left out). *)

Module Doubles.

Local Open Scope Z_scope.

(** The integer nearest to [n / d], ties to even ([0 <= n], [0 < d]). *)
Definition roundHalfEven (n d : Z) : Z :=
  let q := n / d in
  let r := n mod d in
  match 2 * r ?= d with
  | Lt => q
  | Gt => q + 1
  | Eq => if Z.even q then q else q + 1
  end.

(** [2 ^ t <= a / d] ([0 <= a], [0 < d]). *)
Definition atLeastPow2 (a d t : Z) : bool :=
  if 0 <=? t then d * 2 ^ t <=? a else d <=? a * 2 ^ (- t).

(** [m * 2 ^ e] *)
Definition scale2 (m e : Z) : Q :=
  if 0 <=? e then inject_Z (m * 2 ^ e) else Qred (m # Z.to_pos (2 ^ (- e))).

(** The double nearest to [x], ties to the even significand; the
    numbers below [2 ^ -1022] are rounded to a multiple of [2 ^ -1074].
    Meant for [x] of magnitude below [2 ^ 1024], where a double is
    finite. *)
Definition roundDouble (x : Q) : Q :=
  let x := Qred x in
  let n := Qnum x in
  let d := Zpos (Qden x) in
  if n =? 0 then 0%Q
  else
    let a := Z.abs n in
    let t := Z.log2 a - Z.log2 d in
    let k := if atLeastPow2 a d t then t else t - 1 in
    let e := Z.max (k - 52) (-1074) in
    let m := if 0 <=? e then roundHalfEven a (d * 2 ^ e)
             else roundHalfEven (a * 2 ^ (- e)) d in
    scale2 (Z.sgn n * m) e.

End Doubles.

(** ** The sums of the pages in double precision

    The loops of [MasterLedger] and [Dashboard] again, with every
    addition and subtraction rounded by [round]; with no rounding they
    are the definitions above. *)

Module Rounded.

Import JS.
Import MasterLedger.

Section Arithmetic.

(** Rounding to the nearest double. *)
Variable round : Q -> Q.

(** [a + b] and [a - b] on numbers. *)
Definition plus (a b : Q) : Q := round (a + b).
Definition minus (a b : Q) : Q := round (a - b).

(** [s.payments?.reduce((sum, p) => sum + p.amount_paid, 0) || 0] *)
Definition sumPayments (ps : list Payment) : Q :=
  fold_left (fun sum p => plus sum (amount_paid p)) ps 0.

Definition totalPaidOf (ps : option (list Payment)) : Q :=
  or_zero (option_map sumPayments ps).

(** The same sum in [handleShowDetail] of the dashboard. *)
Definition dashboardTotalPaid (ps : option (list Dashboard.PaymentAmount)) : Q :=
  or_zero (option_map
             (fun l => fold_left (fun sum p => plus sum (Dashboard.amount_paid p)) l 0)
             ps).

(** [assignedAmount - discount] *)
Definition netPayableForThisFee (sft : StudentFeeType) : Q :=
  minus (assignedAmount sft) (discountOf sft).

Definition detailOf (sft : StudentFeeType) : FeeTypeDetail :=
  {| fd_id := fd_id (MasterLedger.detailOf sft);
     fd_name := fd_name (MasterLedger.detailOf sft);
     fd_assigned_amount := assignedAmount sft;
     fd_discount := discountOf sft;
     net_payable := netPayableForThisFee sft;
     fd_scheduled_date := fd_scheduled_date (MasterLedger.detailOf sft) |}.

(** The body of the [map] over [student_fee_types]: the two [+=]. *)
Definition resolveStep (todayISO : string) (acc : Totals) (sft : StudentFeeType)
  : Totals :=
  let net := netPayableForThisFee sft in
  {| calculated_total_assigned_fees_for_student :=
       plus (calculated_total_assigned_fees_for_student acc) net;
     calculated_due_fees_this_moment :=
       if countsAsDue todayISO sft
       then plus (calculated_due_fees_this_moment acc) net
       else calculated_due_fees_this_moment acc;
     allFeeDetailsDisplay := allFeeDetailsDisplay acc ++ [detailOf sft] |}.

Definition resolveFees (todayISO : string) (sfts : option (list StudentFeeType))
  : Totals :=
  match sfts with
  | Some l => fold_left (resolveStep todayISO) l noTotals
  | None => noTotals
  end.

End Arithmetic.

End Rounded.

(** * Vocabulary of the statements

    Sample rows and the notions the properties are stated with. *)

Import JS.
Import MasterLedger.

(** A student of the page state with the given figures. *)
Definition ledgerStudent (assigned dueNow : Q) (paidSoFar : option Q)
  : StudentWithPayments :=
  {| row := {| name := "A. Student"; roll_no := None; academic_year := None;
               classes := None; payments := None; student_fee_types := None |};
     class_name := "N/A";
     totalPaid := paidSoFar;
     calculated_total_assigned_fees := assigned;
     calculated_due_fees_total := dueNow;
     all_fee_details_for_display := [] |}.

(** The status rule with small-total threshold [eps], for chosen fee
    total [F] and total paid [P >= 0]. *)
Definition status_rule (eps F P : Q) (s : Status) : Prop :=
  (F <= eps -> 0 < P -> s = paid) /\
  (F <= eps -> P == 0 -> s = no_fees_due) /\
  (eps < F -> F <= P -> s = paid) /\
  (eps < F -> 0 < P -> P < F -> s = partially_paid) /\
  (eps < F -> P == 0 -> s = unpaid).

(** The sum of a list of amounts. *)
Definition sumQ (l : list Q) : Q := fold_right Qplus 0 l.

(** A fee line with the given link columns and joined fee type. *)
Definition feeLine (amount disc : option Q) (ft : option FeeTypeRow) : StudentFeeType :=
  {| sft_id := None; assigned_amount := amount; discount := disc;
     discount_description := None; net_payable_amount := None; fee_type := ft |}.

Definition feeTypeOn (default : option Q) (scheduled : option string) : FeeTypeRow :=
  {| ft_id := "ft-1"; ft_name := "Tuition";
     default_amount := default; scheduled_date := scheduled |}.

Definition payment (amount : Q) : Payment :=
  {| date := "2024-05-01T10:00:00.000Z"; amount_paid := amount;
     mode_of_payment := "cash"; receipt_number := "R-1" |}.

(** Whether a line scheduled on [sched] (or not scheduled) is due on
    [today], by calendar date. *)
Definition dueOn (today : CalendarDate) (sched : option CalendarDate) : bool :=
  match sched with
  | Some d => onOrBefore d today
  | None => true
  end.

Definition june1 : CalendarDate := {| year := 2024; month := 6; day := 1 |}.
Definition january15 : CalendarDate := {| year := 2024; month := 1; day := 15 |}.
Definition nextYear : CalendarDate := {| year := 2025; month := 4; day := 1 |}.

Definition scenarioLines : list StudentFeeType :=
  [feeLine (Some 1000) (Some 100)
           (Some (feeTypeOn (Some 1000) (Some (isoDate january15))));
   feeLine (Some 500) (Some 0)
           (Some (feeTypeOn (Some 500) (Some (isoDate nextYear))))].

(** [s] is truthy as a string. *)
Definition nonEmptyText (s : string) : bool :=
  match s with
  | EmptyString => false
  | _ => true
  end.

(** The lines of the export after the header: each one starts on a new
    line. *)
Definition linesAfter (rows : list (list Cell)) : string :=
  fold_right (fun r rest => String newline (csvLine r ++ rest)%string) EmptyString rows.

(** A two-column header and row for running the export. *)
Definition sampleHeader : list Cell := [Some "Name"; Some "Roll No"]%string.

Definition sampleRow (_ : FeeView) (stu : StudentWithPayments) : list Cell :=
  [Some (name (row stu)); roll_no (row stu)].

Definition studentNamed (n : string) (roll : option string) : StudentWithPayments :=
  {| row := {| name := n; roll_no := roll; academic_year := None;
               classes := None; payments := None; student_fee_types := None |};
     class_name := "N/A";
     totalPaid := Some 0;
     calculated_total_assigned_fees := 0;
     calculated_due_fees_total := 0;
     all_fee_details_for_display := [] |}.

Definition sampleStudents : list StudentWithPayments :=
  [studentNamed "Rao, Anil" (Some "12"%string); studentNamed "Sen" None].

Definition sampleCsv : string :=
  ("Name,Roll No"
     ++ String newline (String dquote "Rao, Anil" ++ String dquote ",12")
     ++ String newline "Sen,")%string.

(** A number strictly greater than 0. *)
Definition positiveNumber (n : RecordPayment.number) : Prop :=
  match n with
  | RecordPayment.Fin q => 0 < q
  | RecordPayment.PosInf => True
  | _ => False
  end.

(** A number that is zero or negative. *)
Definition zeroOrNegative (n : RecordPayment.number) : Prop :=
  match n with
  | RecordPayment.Fin q => q <= 0
  | RecordPayment.NegInf => True
  | _ => False
  end.

Definition sampleEnv : RecordPayment.Env :=
  {| RecordPayment.schoolId := Some "school-1"%string;
     RecordPayment.now_ms := "1717230600000";
     RecordPayment.now_iso := "2024-06-01T08:30:00.000Z";
     RecordPayment.answer := RecordPayment.inserted |}.

(** The page with a student selected and [amount] typed in, over an
    empty [payments] table. *)
Definition sampleWorld (amount : string) : RecordPayment.World :=
  {| RecordPayment.form :=
       {| RecordPayment.selectedStudent :=
            Some {| RecordPayment.id := "stu-1"; RecordPayment.name := "A. Student";
                    RecordPayment.roll_no := None; RecordPayment.class_id := None;
                    RecordPayment.school_id := "school-1" |};
          RecordPayment.amountPaid := amount;
          RecordPayment.modeOfPayment := "upi";
          RecordPayment.description := "";
          RecordPayment.manualReceiptNumber := "";
          RecordPayment.isSubmittingPayment := false |};
     RecordPayment.payments := [];
     RecordPayment.toasts := [] |}.

(** A student of class [cls] with the given figures. *)
Definition classStudent (cls : string) (assigned dueNow : Q) (paidSoFar : option Q)
  : StudentWithPayments :=
  {| row := {| name := "A. Student"; roll_no := None; academic_year := None;
               classes := Some cls; payments := None; student_fee_types := None |};
     class_name := cls;
     totalPaid := paidSoFar;
     calculated_total_assigned_fees := assigned;
     calculated_due_fees_total := dueNow;
     all_fee_details_for_display := [] |}.

Definition schoolOfThree : list StudentWithPayments :=
  [classStudent "VI" 1400 900 (Some 900);
   classStudent "V" 500 500 None;
   classStudent "VI" 0 0 (Some 0)].

(** How often [c] occurs in [s]. *)
Fixpoint countChar (c : ascii) (s : string) : nat :=
  match s with
  | EmptyString => O
  | String a rest => ((if Ascii.eqb a c then 1 else 0) + countChar c rest)%nat
  end.

(** Whether some cell of the row contains [c]. *)
Definition cellsHave (c : ascii) (r : list Cell) : bool :=
  existsb (fun cell => includes c (cellText cell)) r.

(** Lower-casing of the letters A to Z, for running the searches. *)
Definition lowerAscii (c : ascii) : ascii :=
  let n := N_of_ascii c in
  if ((65 <=? n) && (n <=? 90))%N then ascii_of_N (n + 32) else c.

Fixpoint lowerText (s : string) : string :=
  match s with
  | EmptyString => EmptyString
  | String c rest => String (lowerAscii c) (lowerText rest)
  end.

Definition namedStudents : list StudentWithPayments :=
  [studentNamed "Anil Rao" (Some "12"%string); studentNamed "Sen" None;
   studentNamed "Anita" (Some "7"%string)].

Definition listedStudents : list RecordPayment.StudentListItem :=
  [ {| RecordPayment.id := "stu-1"; RecordPayment.name := "Anil Rao";
       RecordPayment.roll_no := Some "12"%string; RecordPayment.class_id := None;
       RecordPayment.school_id := "school-1" |};
    {| RecordPayment.id := "stu-2"; RecordPayment.name := "Sen";
       RecordPayment.roll_no := None; RecordPayment.class_id := None;
       RecordPayment.school_id := "school-1" |} ].

Definition sampleStudent : RecordPayment.StudentListItem :=
  {| RecordPayment.id := "stu-1"; RecordPayment.name := "A. Student";
     RecordPayment.roll_no := None; RecordPayment.class_id := None;
     RecordPayment.school_id := "school-1" |}.

(** [sampleEnv] with another answer of the backend. *)
Definition envAnswering (a : RecordPayment.InsertAnswer) : RecordPayment.Env :=
  {| RecordPayment.schoolId := Some "school-1"%string;
     RecordPayment.now_ms := "1717230600000";
     RecordPayment.now_iso := "2024-06-01T08:30:00.000Z";
     RecordPayment.answer := a |}.

Definition classFeeTypes : list FeeTypeRow :=
  [ {| ft_id := "tuition"; ft_name := "Tuition";
       default_amount := Some 1000; scheduled_date := None |};
    {| ft_id := "bus"; ft_name := "Bus";
       default_amount := Some 500; scheduled_date := None |};
    {| ft_id := "lab"; ft_name := "Lab";
       default_amount := None; scheduled_date := None |} ].

(** A discount of 100 on tuition, none elsewhere. *)
Definition tuitionDiscount : Registration.Adjustments :=
  fun id => if String.eqb id "tuition"
            then Some {| Registration.adj_discount := 100;
                         Registration.adj_description := "sibling" |}
            else None.

Definition registeredStudents : list Registration.StudentDisplay :=
  [ {| Registration.sd_id := "stu-1"; Registration.sd_name := "Anil Rao";
       Registration.sd_school_id := "school-1" |};
    {| Registration.sd_id := "stu-2"; Registration.sd_name := "Sen";
       Registration.sd_school_id := "school-1" |} ].

Definition registeredLinks : list Registration.LinkRow :=
  [ {| Registration.lr_student_id := "stu-1"; Registration.lr_school_id := "school-1";
       Registration.lr_fee_type_id := "tuition" |};
    {| Registration.lr_student_id := "stu-2"; Registration.lr_school_id := "school-1";
       Registration.lr_fee_type_id := "tuition" |} ].

Definition registryDb : Registration.Db :=
  {| Registration.students := registeredStudents;
     Registration.student_fee_types := registeredLinks |}.

(** The page with the deletion dialog open on the first student and
    [typed] in the confirmation field. *)
Definition deletionPage (typed : string) : Registration.Page :=
  {| Registration.deleteModalOpen := true;
     Registration.deleteStudent :=
       Some {| Registration.sd_id := "stu-1"; Registration.sd_name := "Anil Rao";
               Registration.sd_school_id := "school-1" |};
     Registration.confirmDeleteName := typed;
     Registration.isSubmitting := false;
     Registration.toasts := [] |}.

Definition feesOf (fees : option Q) (paidAmounts : list Q) : Dashboard.StudentFees :=
  {| Dashboard.sf_name := "A. Student"; Dashboard.sf_roll_no := None;
     Dashboard.sf_classes := None; Dashboard.total_fees := fees;
     Dashboard.payments := Some (map Dashboard.Build_PaymentAmount paidAmounts) |}.


(** [selectedClassId || 'all'] *)
Definition classOrAll (selectedClassId : string) : string :=
  match selectedClassId with
  | EmptyString => "all"
  | id => id
  end.

(** The sum of [l] as the code takes it: from 0, one addition after the
    other, each rounded. *)
Definition runningSum (round : Q -> Q) (l : list Q) : Q :=
  fold_left (fun sum a => round (sum + a)) l 0.

(** The doubles that 0.1 and 0.2 are read as. *)
Definition oneTenth : Q := Doubles.roundDouble (1 # 10).
Definition twoTenths : Q := Doubles.roundDouble (2 # 10).

(** Two lines of 0.1 and 0.2, both due. *)
Definition tenthsLines : list StudentFeeType :=
  [feeLine (Some oneTenth) None (Some (feeTypeOn None None));
   feeLine (Some twoTenths) None (Some (feeTypeOn None None))].

(** * Properties *)

(** ** Comparisons on amounts *)

Lemma Qltb_lt x y : Qltb x y = true <-> x < y.
Proof.
  unfold Qltb. rewrite negb_true_iff.
  split; intro H.
  - apply Qnot_le_lt. intro L. apply Qle_bool_iff in L. congruence.
  - destruct (Qle_bool y x) eqn:E; [|reflexivity].
    apply Qle_bool_iff in E. exfalso. apply (Qlt_not_le _ _ H E).
Qed.

Lemma Qltb_ge x y : Qltb x y = false <-> y <= x.
Proof.
  unfold Qltb. rewrite negb_false_iff. apply Qle_bool_iff.
Qed.

Lemma Qle_bool_gt x y : Qle_bool x y = false <-> y < x.
Proof.
  rewrite <- Qltb_lt. unfold Qltb.
  destruct (Qle_bool x y); simpl; split; congruence.
Qed.

Lemma or_zero_Some x : or_zero (Some x) == x.
Proof.
  unfold or_zero, truthy.
  destruct (Qeq_bool x 0) eqn:E; simpl; [|reflexivity].
  apply Qeq_bool_iff in E. symmetry. exact E.
Qed.

(** Reflects the three comparisons of [getDynamicStatus] into [Q]. *)
Ltac reflect_cmp :=
  repeat match goal with
  | H : Qle_bool _ _ = true |- _ => apply Qle_bool_iff in H
  | H : Qle_bool _ _ = false |- _ => apply Qle_bool_gt in H
  | H : Qltb _ _ = true |- _ => apply Qltb_lt in H
  | H : Qltb _ _ = false |- _ => apply Qltb_ge in H
  end.

Ltac status_cases fees p :=
  destruct (Qle_bool fees (9 # 1000)) eqn:Heps;
  [ destruct (Qltb 0 p) eqn:Hpos
  | destruct (Qle_bool fees p) eqn:Hfull;
    [ | destruct (Qltb 0 p) eqn:Hpos;
        [ destruct (Qltb p fees) eqn:Hpart | ] ] ];
  cbn [andb]; reflect_cmp.

(** ** Status classifier *)

(** C1, as stated (threshold 0.01), fails: with a chosen fee total of
    exactly 0.01 and nothing paid the classifier answers [unpaid], where
    the rule with threshold 0.01 asks for [no_fees_due]. *)
Lemma status_rule_001_fails :
  let stu := ledgerStudent (1 # 100) (1 # 100) (Some 0) in
  feesToConsider total stu <= 1 # 100 /\
  paidOf stu == 0 /\
  getDynamicStatus total stu = unpaid /\
  ~ status_rule (1 # 100) (feesToConsider total stu) (paidOf stu)
      (getDynamicStatus total stu).
Proof.
  cbv zeta. split; [|split; [|split]].
  - vm_compute. discriminate.
  - reflexivity.
  - reflexivity.
  - intros (_ & H & _).
    assert (E : getDynamicStatus total (ledgerStudent (1 # 100) (1 # 100) (Some 0))
                = no_fees_due).
    { apply H; [vm_compute; discriminate | reflexivity]. }
    vm_compute in E. discriminate E.
Qed.

(** C1 (amended): for every view, chosen fee total F and total paid
    P >= 0 the classifier follows the status rule with threshold 0.009:
    if F <= 0.009 then [paid] when P > 0 and [no_fees_due] when P = 0;
    otherwise [paid] when P >= F, [partially_paid] when 0 < P < F and
    [unpaid] when P = 0. *)
Theorem status_rule_0009 (feeViewType : FeeView) (student : StudentWithPayments) :
  0 <= paidOf student ->
  status_rule (9 # 1000) (feesToConsider feeViewType student) (paidOf student)
    (getDynamicStatus feeViewType student).
Proof.
  unfold getDynamicStatus, status_rule. cbv zeta.
  generalize (feesToConsider feeViewType student) (paidOf student).
  intros F P Hnonneg.
  status_cases F P; repeat split; intros; try reflexivity; exfalso; lra.
Qed.

Lemma status_rule_0009_witness :
  0 <= paidOf (ledgerStudent 1400 900 (Some 900)) /\
  status_rule (9 # 1000) 1400 900
    (getDynamicStatus total (ledgerStudent 1400 900 (Some 900))).
Proof.
  split.
  - vm_compute. discriminate.
  - apply (status_rule_0009 total (ledgerStudent 1400 900 (Some 900))).
    vm_compute. discriminate.
Defined.

(** C3, as stated, fails: a student who paid nothing and whose total
    assigned is positive but at most 0.009 is classified [no_fees_due],
    not [unpaid]. *)
Lemma unpaid_needs_threshold :
  let stu := ledgerStudent (5 # 1000) 0 (Some 0) in
  paidOf stu == 0 /\
  0 < calculated_total_assigned_fees stu /\
  getDynamicStatus total stu = no_fees_due.
Proof.
  cbv zeta. repeat split.
Qed.

(** C3 (amended): for every student whose total paid equals 0 and whose
    totalAssigned is strictly greater than 0.009, the classifier in
    assigned view returns [unpaid]. *)
Theorem unpaid_above_threshold (student : StudentWithPayments) :
  paidOf student == 0 ->
  9 # 1000 < calculated_total_assigned_fees student ->
  getDynamicStatus total student = unpaid.
Proof.
  unfold getDynamicStatus. cbv zeta. cbn [feesToConsider].
  generalize (calculated_total_assigned_fees student) (paidOf student).
  intros F P Hzero Habove.
  status_cases F P; try reflexivity; exfalso; lra.
Qed.

Lemma unpaid_above_threshold_witness :
  getDynamicStatus total (ledgerStudent 1400 900 (Some 0)) = unpaid.
Proof.
  apply (unpaid_above_threshold (ledgerStudent 1400 900 (Some 0))).
  - reflexivity.
  - reflexivity.
Defined.

(** C10: for every chosen fee total and every total paid strictly
    greater than 0 the classifier never returns [unpaid]; it returns
    [unpaid] only when total paid is 0 or negative. *)
Theorem unpaid_only_when_nothing_paid
        (feeViewType : FeeView) (student : StudentWithPayments) :
  (0 < paidOf student -> getDynamicStatus feeViewType student <> unpaid) /\
  (getDynamicStatus feeViewType student = unpaid -> paidOf student <= 0).
Proof.
  unfold getDynamicStatus. cbv zeta.
  generalize (feesToConsider feeViewType student) (paidOf student).
  intros F P.
  status_cases F P; split; intros; try discriminate; try lra.
Qed.

Lemma unpaid_only_when_nothing_paid_witness :
  0 < paidOf (ledgerStudent 1400 900 (Some 900)) /\
  getDynamicStatus due (ledgerStudent 1400 900 (Some 900)) <> unpaid /\
  getDynamicStatus total (ledgerStudent 1400 900 (Some 0)) = unpaid /\
  paidOf (ledgerStudent 1400 900 (Some 0)) <= 0.
Proof.
  split; [reflexivity|].
  split.
  - apply (proj1 (unpaid_only_when_nothing_paid due (ledgerStudent 1400 900 (Some 900)))).
    reflexivity.
  - split; [reflexivity|].
    apply (proj2 (unpaid_only_when_nothing_paid total (ledgerStudent 1400 900 (Some 0)))).
    reflexivity.
Defined.

(** ** Fee assignment resolver *)

Lemma sumQ_app l1 l2 : sumQ (l1 ++ l2) == sumQ l1 + sumQ l2.
Proof.
  induction l1 as [|x l1 IH]; simpl.
  - ring.
  - rewrite IH. ring.
Qed.

Section ResolverLoop.

Variable todayISO : string.

Lemma loop_total l : forall acc,
  calculated_total_assigned_fees_for_student (fold_left (resolveStep todayISO) l acc)
  == calculated_total_assigned_fees_for_student acc
     + sumQ (map netPayableForThisFee l).
Proof.
  induction l as [|sft l IH]; intro acc; simpl.
  - ring.
  - rewrite IH. unfold resolveStep; simpl. ring.
Qed.

Lemma loop_due l : forall acc,
  calculated_due_fees_this_moment (fold_left (resolveStep todayISO) l acc)
  == calculated_due_fees_this_moment acc
     + sumQ (map netPayableForThisFee (filter (countsAsDue todayISO) l)).
Proof.
  induction l as [|sft l IH]; intro acc; simpl.
  - ring.
  - rewrite IH. unfold resolveStep; simpl.
    destruct (countsAsDue todayISO sft); simpl; ring.
Qed.

Lemma loop_details l : forall acc,
  allFeeDetailsDisplay (fold_left (resolveStep todayISO) l acc)
  = allFeeDetailsDisplay acc ++ map detailOf l.
Proof.
  induction l as [|sft l IH]; intro acc; simpl.
  - symmetry. apply app_nil_r.
  - rewrite IH. unfold resolveStep; simpl.
    rewrite <- app_assoc. reflexivity.
Qed.

End ResolverLoop.

Lemma resolve_total todayISO l :
  calculated_total_assigned_fees_for_student (resolveFees todayISO (Some l))
  == sumQ (map netPayableForThisFee l).
Proof.
  unfold resolveFees. rewrite loop_total. simpl. ring.
Qed.

Lemma resolve_due todayISO l :
  calculated_due_fees_this_moment (resolveFees todayISO (Some l))
  == sumQ (map netPayableForThisFee (filter (countsAsDue todayISO) l)).
Proof.
  unfold resolveFees. rewrite loop_due. simpl. ring.
Qed.

(** The lines left out of the due total keep the two totals apart. *)
Lemma total_minus_due todayISO l :
  sumQ (map netPayableForThisFee l)
  == sumQ (map netPayableForThisFee (filter (countsAsDue todayISO) l))
     + sumQ (map netPayableForThisFee
                 (filter (fun sft => negb (countsAsDue todayISO sft)) l)).
Proof.
  induction l as [|sft l IH]; simpl.
  - ring.
  - rewrite IH. destruct (countsAsDue todayISO sft); simpl; ring.
Qed.

Lemma sumQ_nonneg l : (forall x, In x l -> 0 <= x) -> 0 <= sumQ l.
Proof.
  induction l as [|x l IH]; intro H; simpl.
  - apply Qle_refl.
  - assert (0 <= x) by (apply H; left; reflexivity).
    assert (0 <= sumQ l) by (apply IH; intros y Hy; apply H; right; exact Hy).
    lra.
Qed.

(** C2, as stated, fails: one line of amount 0 with discount 100,
    scheduled after the reference date, gives totalAssigned = -100 and
    totalDue = 0. *)
Lemma assigned_below_due :
  let l := [feeLine (Some 0) (Some 100)
                    (Some (feeTypeOn (Some 0) (Some "2999-01-01"%string)))] in
  let t := resolveFees "2024-06-01" (Some l) in
  calculated_total_assigned_fees_for_student t == -100 /\
  calculated_due_fees_this_moment t == 0 /\
  ~ calculated_due_fees_this_moment t
    <= calculated_total_assigned_fees_for_student t.
Proof.
  cbv zeta. split; [reflexivity|]. split; [reflexivity|].
  vm_compute. intro H. apply H. reflexivity.
Qed.

(** C2 (amended): for every sequence of fee-type assignments and every
    reference date, if every assignment that is not counted as due has
    a net payable of at least 0 (in particular if no discount exceeds
    its assigned amount), then totalAssigned >= totalDue. *)
Theorem assigned_at_least_due
        (todayISO : string) (sfts : option (list StudentFeeType)) :
  (forall l sft, sfts = Some l -> In sft l ->
                 countsAsDue todayISO sft = false ->
                 0 <= netPayableForThisFee sft) ->
  calculated_due_fees_this_moment (resolveFees todayISO sfts)
  <= calculated_total_assigned_fees_for_student (resolveFees todayISO sfts).
Proof.
  intro Hnet. destruct sfts as [l|].
  - rewrite resolve_total, resolve_due, (total_minus_due todayISO l).
    assert (0 <= sumQ (map netPayableForThisFee
                           (filter (fun sft => negb (countsAsDue todayISO sft)) l))).
    { apply sumQ_nonneg. intros x Hx.
      apply in_map_iff in Hx. destruct Hx as (sft & <- & Hin).
      apply filter_In in Hin. destruct Hin as [Hin Hnd].
      apply negb_true_iff in Hnd.
      apply (Hnet l sft eq_refl Hin Hnd). }
    lra.
  - simpl. apply Qle_refl.
Qed.

Lemma assigned_at_least_due_witness :
  let l := [feeLine (Some 1000) (Some 100)
                    (Some (feeTypeOn (Some 1000) (Some "2024-01-15"%string)));
            feeLine (Some 500) (Some 0)
                    (Some (feeTypeOn (Some 500) (Some "2999-01-01"%string)))] in
  calculated_due_fees_this_moment (resolveFees "2024-06-01" (Some l))
  <= calculated_total_assigned_fees_for_student (resolveFees "2024-06-01" (Some l)).
Proof.
  cbv zeta.
  apply (assigned_at_least_due "2024-06-01").
  intros l sft Hl Hin Hnd.
  injection Hl as <-.
  destruct Hin as [<- | [<- | []]].
  - vm_compute. discriminate.
  - vm_compute. discriminate.
Defined.

(** C5: in the master ledger a missing assigned amount falls back to the
    fee type's default amount and then to 0, a missing discount to 0,
    and a student without fee-type assignments has both totals 0.  The
    ledger takes only [null] for missing ([??]): an assigned amount of 0
    stays 0 there, while the student-registration page ([||]) replaces
    it by the default amount. *)
Theorem missing_amounts_default :
  (forall sft a, assigned_amount sft = Some a -> assignedAmount sft = a) /\
  (forall sft ft d, assigned_amount sft = None -> fee_type sft = Some ft ->
                    default_amount ft = Some d -> assignedAmount sft = d) /\
  (forall sft, assigned_amount sft = None ->
               default_amount_of (fee_type sft) = None -> assignedAmount sft = 0) /\
  (forall sft, discount sft = None -> discountOf sft = 0) /\
  (forall todayISO s,
      student_fee_types s = None \/ student_fee_types s = Some [] ->
      calculated_total_assigned_fees (enrich todayISO s) = 0 /\
      calculated_due_fees_total (enrich todayISO s) = 0) /\
  (forall sft a ft d, assigned_amount sft = Some a -> a == 0 ->
                      fee_type sft = Some ft -> default_amount ft = Some d ->
                      assignedAmount sft == 0 /\
                      ManageStudents.assigned_amount_of sft == d) /\
  (forall sft, assigned_amount sft = None ->
               ManageStudents.assigned_amount_of sft
               == or_zero (default_amount_of (fee_type sft))).
Proof.
  repeat apply conj.
  - intros sft a Ha. unfold assignedAmount. rewrite Ha. reflexivity.
  - intros sft ft d Ha Hft Hd. unfold assignedAmount, default_amount_of.
    rewrite Ha, Hft, Hd. reflexivity.
  - intros sft Ha Hd. unfold assignedAmount. rewrite Ha, Hd. reflexivity.
  - intros sft Hd. unfold discountOf. rewrite Hd. reflexivity.
  - intros todayISO s [H | H]; unfold enrich; simpl; rewrite H; split; reflexivity.
  - intros sft a ft d Ha Hzero Hft Hd. split.
    + unfold assignedAmount. rewrite Ha. simpl. exact Hzero.
    + unfold ManageStudents.assigned_amount_of, default_amount_of, or_num.
      rewrite Ha, Hft, Hd.
      assert (T : truthy a = false).
      { unfold truthy. apply negb_false_iff. apply Qeq_bool_iff. exact Hzero. }
      rewrite T. apply or_zero_Some.
  - intros sft Ha. unfold ManageStudents.assigned_amount_of. rewrite Ha.
    reflexivity.
Qed.

Lemma missing_amounts_default_witness :
  let ft := feeTypeOn (Some 750) None in
  assignedAmount (feeLine (Some 120) None (Some ft)) = 120 /\
  assignedAmount (feeLine None None (Some ft)) = 750 /\
  assignedAmount (feeLine None None None) = 0 /\
  discountOf (feeLine None None None) = 0 /\
  (assignedAmount (feeLine (Some 0) None (Some ft)) == 0 /\
   ManageStudents.assigned_amount_of (feeLine (Some 0) None (Some ft)) == 750).
Proof.
  cbv zeta.
  destruct missing_amounts_default as (H1 & H2 & H3 & H4 & _ & H6 & _).
  split; [apply (H1 _ 120); reflexivity|].
  split; [apply (H2 _ (feeTypeOn (Some 750) None) 750); reflexivity|].
  split; [apply H3; reflexivity|].
  split; [apply H4; reflexivity|].
  apply (H6 _ 0 (feeTypeOn (Some 750) None) 750); reflexivity.
Defined.

(** ** Payment aggregator *)

Lemma reduce_sum {A : Type} (f : A -> Q) (l : list A) : forall acc,
  fold_left (fun sum p => sum + f p) l acc == acc + sumQ (map f l).
Proof.
  induction l as [|p l IH]; intro acc; simpl.
  - ring.
  - rewrite IH. ring.
Qed.

(** ** Calendar dates and their text *)

Lemma digit_compare (a b : N) :
  (a < 10)%N -> (b < 10)%N -> Ascii.compare (digit a) (digit b) = N.compare a b.
Proof.
  intros Ha Hb. unfold Ascii.compare, digit.
  rewrite !N_ascii_embedding by lia.
  destruct (N.compare_spec a b), (N.compare_spec (48 + a) (48 + b));
    try reflexivity; exfalso; lia.
Qed.

Lemma mod10_lt (n : N) : (n mod 10 < 10)%N.
Proof. apply N.mod_lt. discriminate. Qed.

(** Comparing two numbers is comparing their quotients by [B], then
    their remainders. *)
Lemma compare_split (B x y : N) :
  (0 < B)%N ->
  N.compare x y
  = match N.compare (x / B) (y / B) with
    | Eq => N.compare (x mod B) (y mod B)
    | c => c
    end.
Proof.
  intro HB.
  assert (Hx := N.div_mod x B). assert (Hy := N.div_mod y B).
  assert (Hrx := N.mod_lt x B). assert (Hry := N.mod_lt y B).
  revert Hx Hy Hrx Hry.
  generalize (x / B)%N (x mod B)%N (y / B)%N (y mod B)%N.
  intros qx rx qy ry Hx Hy Hrx Hry.
  assert (B <> 0)%N by lia.
  specialize (Hx H). specialize (Hy H). specialize (Hrx H). specialize (Hry H).
  subst x y.
  destruct (N.compare_spec qx qy) as [E | L | G].
  - subst qy.
    destruct (N.compare_spec rx ry), (N.compare_spec (B * qx + rx) (B * qx + ry));
      try reflexivity; exfalso; lia.
  - apply N.compare_lt_iff. nia.
  - apply N.compare_gt_iff. nia.
Qed.

Local Ltac Zify.zify_post_hook ::= Z.to_euclidean_division_equations.

Lemma pad2_compare (n m : N) (r1 r2 : string) :
  String.compare (pad2 n r1) (pad2 m r2)
  = match N.compare (n mod 100) (m mod 100) with
    | Eq => String.compare r1 r2
    | c => c
    end.
Proof.
  unfold pad2. cbn [String.compare].
  rewrite !digit_compare by apply mod10_lt.
  rewrite (compare_split 10 (n mod 100) (m mod 100)) by reflexivity.
  replace ((n mod 100) / 10)%N with (n / 10 mod 10)%N by lia.
  replace ((m mod 100) / 10)%N with (m / 10 mod 10)%N by lia.
  replace ((n mod 100) mod 10)%N with (n mod 10)%N by lia.
  replace ((m mod 100) mod 10)%N with (m mod 10)%N by lia.
  destruct (N.compare (n / 10 mod 10) (m / 10 mod 10)); reflexivity.
Qed.

Lemma pad4_compare (n m : N) (r1 r2 : string) :
  (n < 10000)%N -> (m < 10000)%N ->
  String.compare (pad4 n r1) (pad4 m r2)
  = match N.compare n m with
    | Eq => String.compare r1 r2
    | c => c
    end.
Proof.
  intros Hn Hm. unfold pad4. cbn [String.compare].
  rewrite !digit_compare by apply mod10_lt. rewrite pad2_compare.
  rewrite (compare_split 100 n m) by reflexivity.
  rewrite (compare_split 10 (n / 100) (m / 100)) by reflexivity.
  replace (n / 100 / 10)%N with (n / 1000 mod 10)%N by lia.
  replace (m / 100 / 10)%N with (m / 1000 mod 10)%N by lia.
  destruct (N.compare (n / 1000 mod 10) (m / 1000 mod 10));
    [destruct (N.compare (n / 100 mod 10) (m / 100 mod 10)) | |]; reflexivity.
Qed.

(** Text order on [YYYY-MM-DD] is calendar order. *)
Lemma isoDate_compare (d1 d2 : CalendarDate) :
  wellFormedDate d1 -> wellFormedDate d2 ->
  String.compare (isoDate d1) (isoDate d2) = dateCompare d1 d2.
Proof.
  intros (Hy1 & Hm1 & Hd1) (Hy2 & Hm2 & Hd2).
  unfold isoDate, dateCompare.
  rewrite pad4_compare by assumption.
  destruct (N.compare (year d1) (year d2)); try reflexivity.
  cbn [String.compare]. change (Ascii.compare "-" "-") with Eq. cbv iota.
  rewrite pad2_compare, !N.mod_small by assumption.
  destruct (N.compare (month d1) (month d2)); try reflexivity.
  cbn [String.compare]. change (Ascii.compare "-" "-") with Eq. cbv iota.
  rewrite pad2_compare, !N.mod_small by assumption.
  destruct (N.compare (day d1) (day d2)); reflexivity.
Qed.

Lemma isoDate_leb (d1 d2 : CalendarDate) :
  wellFormedDate d1 -> wellFormedDate d2 ->
  String.leb (isoDate d1) (isoDate d2) = onOrBefore d1 d2.
Proof.
  intros H1 H2. unfold String.leb, onOrBefore.
  rewrite isoDate_compare by assumption.
  destruct (dateCompare d1 d2); reflexivity.
Qed.

Lemma onOrBefore_refl (d : CalendarDate) : onOrBefore d d = true.
Proof.
  unfold onOrBefore, dateCompare. rewrite !N.compare_refl. reflexivity.
Qed.

Lemma countsAsDue_calendar (today : CalendarDate) (sft : StudentFeeType)
      (ft : FeeTypeRow) (sched : option CalendarDate) :
  wellFormedDate today ->
  fee_type sft = Some ft ->
  scheduled_date ft = option_map isoDate sched ->
  (forall d, sched = Some d -> wellFormedDate d) ->
  countsAsDue (isoDate today) sft = dueOn today sched.
Proof.
  intros Htoday Hft Hsched Hwf. unfold countsAsDue, dueOn.
  rewrite Hft, Hsched. destruct sched as [d|]; simpl option_map.
  - change (str_or_null (Some (isoDate d))) with (Some (isoDate d)).
    apply isoDate_leb; [apply Hwf; reflexivity | exact Htoday].
  - reflexivity.
Qed.

(** ** Totals of the resolver *)

(** C4, as stated, fails: a line whose joined fee type is missing has no
    scheduled date, yet its net payable (100) is left out of totalDue. *)
Lemma unscheduled_line_left_out :
  let l := [feeLine (Some 100) None None] in
  let t := resolveFees "2024-06-01" (Some l) in
  map fd_scheduled_date (allFeeDetailsDisplay t) = [None] /\
  map net_payable (allFeeDetailsDisplay t) = [100] /\
  calculated_total_assigned_fees_for_student t == 100 /\
  calculated_due_fees_this_moment t == 0.
Proof.
  cbv zeta. repeat split.
Qed.

(** The scenario of two lines (1000 less 100, already scheduled; 500,
    scheduled later) with 900 paid. *)
Example scenario_two_lines :
  let s := {| name := "A. Student"; roll_no := None; academic_year := None;
              classes := None;
              payments := Some [payment 900];
              student_fee_types := Some scenarioLines |} in
  let stu := enrich (isoDate june1) s in
  calculated_total_assigned_fees stu == 1400 /\
  calculated_due_fees_total stu == 900 /\
  getDynamicStatus due stu = paid /\
  getDynamicStatus total stu = partially_paid.
Proof.
  cbv zeta. repeat split.
Qed.

(** ** CSV export *)

Lemma append_empty (s : string) : (s ++ EmptyString)%string = s.
Proof.
  induction s as [|c s IH]; simpl; [|rewrite IH]; reflexivity.
Qed.

Lemma concat_lines (first : string) (rest : list (list Cell)) :
  String.concat (String newline EmptyString) (first :: map csvLine rest)
  = (first ++ linesAfter rest)%string.
Proof.
  revert first. induction rest as [|r rest IH]; intro first.
  - simpl. symmetry. apply append_empty.
  - change (map csvLine (r :: rest)) with (csvLine r :: map csvLine rest).
    change (String.concat (String newline EmptyString)
                          (first :: csvLine r :: map csvLine rest))
      with (first ++ String newline EmptyString
              ++ String.concat (String newline EmptyString)
                               (csvLine r :: map csvLine rest))%string.
    rewrite IH. reflexivity.
Qed.

Lemma upTo_stops (c : ascii) (a rest : string) :
  includes c a = false ->
  upTo c (a ++ String c rest) = a.
Proof.
  induction a as [|x a IH]; simpl; intro H.
  - rewrite Ascii.eqb_refl. reflexivity.
  - apply orb_false_iff in H. destruct H as [Hx Ha].
    rewrite Hx, (IH Ha). reflexivity.
Qed.



Lemma digit_not_T (k : N) : (k < 10)%N -> Ascii.eqb (digit k) "T" = false.
Proof.
  intro Hk. apply Ascii.eqb_neq. intro E.
  apply (f_equal N_of_ascii) in E. unfold digit in E.
  rewrite N_ascii_embedding in E by lia.
  change (N_of_ascii "T") with 84%N in E. lia.
Qed.

Lemma isoDay_of_timestamp (d : CalendarDate) (time : string) :
  isoDay (isoDate d ++ String "T" time) = isoDate d.
Proof.
  unfold isoDay. apply upTo_stops.
  unfold isoDate, pad4, pad2. cbn [includes].
  rewrite !digit_not_T by apply mod10_lt. reflexivity.
Qed.



(** ** Recording a payment *)

Module RecordPaymentFacts.

Import RecordPayment.

Section Handler.

Variable Number : string -> number.
Variable parseFloat : string -> number.
Variable trim : string -> string.

Lemma invalidAmount_false (amount : string) :
  invalidAmount Number amount = false ->
  amount <> EmptyString /\ positiveNumber (Number amount).
Proof.
  unfold invalidAmount. intro H.
  apply orb_false_iff in H. destruct H as [H Hle].
  apply orb_false_iff in H. destruct H as [Hne Hnan].
  split.
  - intros ->. discriminate Hne.
  - destruct (Number amount) as [| |q|]; simpl in *; try discriminate.
    + apply Qle_bool_gt. exact Hle.
    + exact I.
Qed.

Lemma invalidAmount_true (amount : string) :
  amount = EmptyString \/ Number amount = NaN \/ zeroOrNegative (Number amount) ->
  invalidAmount Number amount = true.
Proof.
  unfold invalidAmount. intros [-> | [H | H]].
  - reflexivity.
  - rewrite H. destruct (nonEmpty amount); reflexivity.
  - destruct (Number amount) as [| |q|]; simpl in *; try contradiction.
    + destruct (nonEmpty amount); reflexivity.
    + apply Qle_bool_iff in H. rewrite H.
      destruct (nonEmpty amount); reflexivity.
Qed.

(** Every run either leaves the table alone or appends one row, and
    appends only past the amount check. *)
Lemma submit_table (env : Env) (w : World) :
  payments (handleSubmitPayment Number parseFloat trim env w) = payments w
  \/ (invalidAmount Number (amountPaid (form w)) = false
      /\ exists row, payments (handleSubmitPayment Number parseFloat trim env w) = payments w ++ [row]).
Proof.
  unfold handleSubmitPayment. cbv zeta.
  destruct (selectedStudent (form w)) as [stu|]; [|left; reflexivity].
  destruct (nonEmpty (id stu)); [|left; reflexivity].
  destruct (schoolId env) as [[|c school]|]; try (left; reflexivity).
  destruct (invalidAmount Number (amountPaid (form w))) eqn:Hinv;
    [left; reflexivity|].
  destruct (answer env); try (left; reflexivity).
  right. split; [reflexivity|]. eexists. reflexivity.
Qed.

Lemma submit_rejects (env : Env) (w : World) :
  invalidAmount Number (amountPaid (form w)) = true ->
  exists msg, handleSubmitPayment Number parseFloat trim env w = notify (toast_error msg) w.
Proof.
  intro Hinv. unfold handleSubmitPayment. cbv zeta.
  destruct (selectedStudent (form w)) as [stu|]; [|eexists; reflexivity].
  destruct (nonEmpty (id stu)); [|eexists; reflexivity].
  destruct (schoolId env) as [[|c school]|]; try (eexists; reflexivity).
  rewrite Hinv. eexists; reflexivity.
Qed.

End Handler.

End RecordPaymentFacts.

(** C8: recording a payment inserts a row only when the entered amount
    is a valid number strictly greater than 0 (and then exactly one
    row); for an empty, non-numeric, zero or negative amount it reports
    an error and inserts nothing, leaving the form and the payments
    table as they were. *)
Theorem payment_needs_positive_amount
        (Number parseFloat : string -> RecordPayment.number) (trim : string -> string)
        (env : RecordPayment.Env) (w : RecordPayment.World) :
  let amount := RecordPayment.amountPaid (RecordPayment.form w) in
  let w' := RecordPayment.handleSubmitPayment Number parseFloat trim env w in
  (RecordPayment.payments w' <> RecordPayment.payments w ->
   amount <> EmptyString /\ positiveNumber (Number amount)
   /\ exists row, RecordPayment.payments w' = RecordPayment.payments w ++ [row])
  /\
  (amount = EmptyString \/ Number amount = RecordPayment.NaN
   \/ zeroOrNegative (Number amount) ->
   RecordPayment.form w' = RecordPayment.form w
   /\ RecordPayment.payments w' = RecordPayment.payments w
   /\ exists msg,
       RecordPayment.toasts w'
       = RecordPayment.toasts w ++ [RecordPayment.toast_error msg]).
Proof.
  cbv zeta. split.
  - intro Hchanged.
    destruct (RecordPaymentFacts.submit_table Number parseFloat trim env w)
      as [Hsame | [Hvalid Hrow]].
    + contradiction.
    + apply RecordPaymentFacts.invalidAmount_false in Hvalid.
      destruct Hvalid as [Hne Hpos]. auto.
  - intro Hbad.
    apply (RecordPaymentFacts.invalidAmount_true Number) in Hbad.
    destruct (RecordPaymentFacts.submit_rejects Number parseFloat trim env w Hbad)
      as [msg ->].
    simpl. repeat split. exists msg. reflexivity.
Qed.

Lemma payment_needs_positive_amount_witness :
  let submit := RecordPayment.handleSubmitPayment
                  RecordPayment.decimalNumber RecordPayment.decimalNumber
                  RecordPayment.trimAscii sampleEnv in
  (RecordPayment.payments (submit (sampleWorld "250.50"))
   <> RecordPayment.payments (sampleWorld "250.50")
   /\ positiveNumber (RecordPayment.decimalNumber "250.50"))
  /\ (zeroOrNegative (RecordPayment.decimalNumber "-5")
      /\ RecordPayment.payments (submit (sampleWorld "-5")) = [])
  /\ (RecordPayment.decimalNumber "abc" = RecordPayment.NaN
      /\ RecordPayment.payments (submit (sampleWorld "abc")) = []).
Proof.
  cbv zeta.
  assert (Hchanged :
            RecordPayment.payments
              (RecordPayment.handleSubmitPayment
                 RecordPayment.decimalNumber RecordPayment.decimalNumber
                 RecordPayment.trimAscii sampleEnv (sampleWorld "250.50"))
            <> RecordPayment.payments (sampleWorld "250.50")) by discriminate.
  assert (Hneg : zeroOrNegative (RecordPayment.decimalNumber "-5"))
    by (vm_compute; discriminate).
  assert (Hnan : RecordPayment.decimalNumber "abc" = RecordPayment.NaN) by reflexivity.
  split; [|split].
  - split; [exact Hchanged|].
    apply (proj1 (payment_needs_positive_amount
                    RecordPayment.decimalNumber RecordPayment.decimalNumber
                    RecordPayment.trimAscii sampleEnv (sampleWorld "250.50"))
                 Hchanged).
  - split; [exact Hneg|].
    apply (proj2 (payment_needs_positive_amount
                    RecordPayment.decimalNumber RecordPayment.decimalNumber
                    RecordPayment.trimAscii sampleEnv (sampleWorld "-5"))
                 (or_intror (or_intror Hneg))).
  - split; [exact Hnan|].
    apply (proj2 (payment_needs_positive_amount
                    RecordPayment.decimalNumber RecordPayment.decimalNumber
                    RecordPayment.trimAscii sampleEnv (sampleWorld "abc"))
                 (or_intror (or_introl Hnan))).
Defined.

(** * Further properties of the pages *)

(** ** School overview *)

Lemma Status_eqb_eq (a b : Status) : Status_eqb a b = true <-> a = b.
Proof.
  destruct a, b; simpl; split; intro H; try reflexivity; discriminate.
Qed.

(** X1: in every row of the school overview the four status counts add
    up to the number of students of the class. *)
Theorem status_counts_cover_group
        (feeViewType : FeeView) (students : list StudentWithPayments) (cls : string) :
  let c := summaryOf feeViewType students cls in
  (studentsUnpaid c + studentsPartial c + studentsPaid c + studentsNoFeesDue c
   = groupSize c)%nat.
Proof.
  cbv zeta. unfold summaryOf. cbn [studentsUnpaid studentsPartial studentsPaid
                                   studentsNoFeesDue groupSize].
  generalize (groupOf cls students). intro group.
  unfold countStatus.
  induction group as [|s group IH]; [reflexivity|].
  cbn [filter List.length].
  destruct (getDynamicStatus feeViewType s); cbn [Status_eqb List.length]; lia.
Qed.

Lemma setAdd_fold (l : list string) : forall acc,
  NoDup acc ->
  NoDup (fold_left setAdd l acc)
  /\ forall x, In x (fold_left setAdd l acc) <-> In x acc \/ In x l.
Proof.
  induction l as [|a l IH]; intros acc Hacc; simpl.
  - split; [exact Hacc|]. intro x. tauto.
  - assert (Hnext : NoDup (setAdd acc a)
                    /\ forall x, In x (setAdd acc a) <-> In x acc \/ a = x).
    { unfold setAdd. destruct (existsb (String.eqb a) acc) eqn:E.
      - split; [exact Hacc|]. intro x. split; [tauto|].
        intros [H | <-]; [exact H|].
        apply existsb_exists in E. destruct E as (y & Hy & Hay).
        apply String.eqb_eq in Hay. subst y. exact Hy.
      - split.
        + apply NoDup_app; [exact Hacc | repeat constructor; intros [] |].
          intros x Hx [Hax | []]. subst x.
          assert (existsb (String.eqb a) acc = true); [|congruence].
          apply existsb_exists. exists a. split; [exact Hx | apply String.eqb_refl].
        + intro x. rewrite in_app_iff. simpl. tauto. }
    destruct Hnext as [Hnd Hin].
    destruct (IH _ Hnd) as [Hnd' Hin'].
    split; [exact Hnd'|].
    intro x. rewrite Hin', Hin. tauto.
Qed.

Lemma setOf_NoDup (l : list string) : NoDup (setOf l).
Proof. apply setAdd_fold. constructor. Qed.

Lemma setOf_In (l : list string) (x : string) : In x (setOf l) <-> In x l.
Proof.
  unfold setOf. rewrite (proj2 (setAdd_fold l [] (NoDup_nil _))). simpl. tauto.
Qed.

Lemma pick_name_count (names : list string) (a : string) :
  NoDup names ->
  list_sum (map (fun c => if String.eqb a c then 1%nat else 0%nat) names)
  = if existsb (String.eqb a) names then 1%nat else 0%nat.
Proof.
  induction 1 as [|c names Hc Hnd IH]; simpl; [reflexivity|].
  rewrite IH. destruct (String.eqb_spec a c) as [-> | Hne]; simpl.
  - destruct (existsb (String.eqb c) names) eqn:E; [|reflexivity].
    exfalso. apply Hc. apply existsb_exists in E.
    destruct E as (y & Hy & Hcy). apply String.eqb_eq in Hcy. subst y. exact Hy.
  - reflexivity.
Qed.

Lemma list_sum_map_plus {A : Type} (g h : A -> nat) (l : list A) :
  list_sum (map (fun x => g x + h x)%nat l)
  = (list_sum (map g l) + list_sum (map h l))%nat.
Proof.
  induction l as [|x l IH]; simpl; [reflexivity|]. rewrite IH. lia.
Qed.

Lemma groups_count (names : list string) (students : list StudentWithPayments) :
  NoDup names ->
  (forall s, In s students -> In (class_name s) names) ->
  list_sum (map (fun c => List.length (groupOf c students)) names)
  = List.length students.
Proof.
  intros Hnd. induction students as [|s students IH]; intro Hall.
  - clear. induction names as [|c names IHn]; [reflexivity | exact IHn].
  - rewrite (map_ext _
               (fun c => ((if String.eqb (class_name s) c then 1 else 0)
                          + List.length (groupOf c students))%nat)).
    + rewrite list_sum_map_plus, IH, pick_name_count by
        (try assumption; intros x Hx; apply Hall; right; exact Hx).
      assert (E : existsb (String.eqb (class_name s)) names = true).
      { apply existsb_exists. exists (class_name s).
        split; [apply Hall; left; reflexivity | apply String.eqb_refl]. }
      rewrite E. reflexivity.
    + intro c. unfold groupOf. simpl.
      destruct (String.eqb (class_name s) c); reflexivity.
Qed.

Lemma filter_splits {A : Type} (f : A -> bool) (l : list A) :
  Permutation (filter f l ++ filter (fun x => negb (f x)) l) l.
Proof.
  induction l as [|x l IH]; simpl; [constructor|].
  destruct (f x); simpl.
  - constructor. exact IH.
  - apply Permutation_sym. apply Permutation_cons_app.
    apply Permutation_sym. exact IH.
Qed.

Lemma groupOf_other (c c' : string) (students : list StudentWithPayments) :
  c' <> c ->
  groupOf c' (filter (fun s => negb (String.eqb (class_name s) c)) students)
  = groupOf c' students.
Proof.
  intro Hne. unfold groupOf.
  induction students as [|s students IH]; simpl; [reflexivity|].
  destruct (String.eqb_spec (class_name s) c) as [E | E]; simpl.
  - destruct (String.eqb_spec (class_name s) c') as [E' | E']; [congruence|].
    exact IH.
  - rewrite IH. reflexivity.
Qed.

(** The groups of a duplicate-free list of names that covers the
    classes of the students are a rearrangement of the students. *)
Lemma groups_partition (names : list string) :
  NoDup names ->
  forall students,
    (forall s, In s students -> In (class_name s) names) ->
    Permutation (List.concat (map (fun c => groupOf c students) names)) students.
Proof.
  induction 1 as [|c names Hc Hnd IH]; intros students Hall.
  - destruct students as [|s students]; [constructor|].
    exfalso. apply (Hall s). left. reflexivity.
  - cbn [map List.concat].
    set (others := filter (fun s => negb (String.eqb (class_name s) c)) students).
    assert (Hsame : map (fun c' => groupOf c' students) names
                    = map (fun c' => groupOf c' others) names).
    { apply map_ext_in. intros c' Hc'. symmetry. apply groupOf_other.
      intros ->. contradiction. }
    rewrite Hsame.
    apply (Permutation_trans (l' := groupOf c students ++ others)).
    + apply Permutation_app_head. apply IH.
      intros s Hs. apply filter_In in Hs. destruct Hs as [Hs Hne].
      apply negb_true_iff in Hne. apply String.eqb_neq in Hne.
      destruct (Hall s Hs) as [E | Hin]; [congruence | exact Hin].
    + apply (filter_splits (fun s => String.eqb (class_name s) c) students).
Qed.

(** X2: in the school overview every displayed student falls in exactly
    one class row, whatever order the sort gives the class names: there
    is one row per class name, the groups of the rows put together are a
    rearrangement of the students shown, and the class sizes add up to
    the number of students shown. *)
Theorem class_rows_partition
        (sortNames : list string -> list string)
        (feeViewType : FeeView) (students : list StudentWithPayments) :
  (forall l, Permutation (sortNames l) l) ->
  let rows := classOverview sortNames feeViewType students in
  NoDup (map className rows)
  /\ (forall s, In s students -> In (class_name s) (map className rows))
  /\ Permutation
       (List.concat (map (fun r => groupOf (className r) students) rows))
       students
  /\ (forall r, In r rows ->
                groupSize r = List.length (groupOf (className r) students))
  /\ list_sum (map groupSize rows) = List.length students.
Proof.
  intros Hsort. cbv zeta. unfold classOverview.
  set (names := sortNames (setOf (map class_name students))).
  assert (Hperm : Permutation names (setOf (map class_name students)))
    by apply Hsort.
  assert (Hnd : NoDup names).
  { apply (Permutation_NoDup (Permutation_sym Hperm)). apply setOf_NoDup. }
  assert (Hall : forall s, In s students -> In (class_name s) names).
  { intros s Hs. apply (Permutation_in _ (Permutation_sym Hperm)).
    apply setOf_In. apply in_map. exact Hs. }
  assert (Hnames : map className (map (summaryOf feeViewType students) names)
                   = names).
  { rewrite map_map. cbn [className summaryOf]. apply map_id. }
  rewrite Hnames, !map_map. cbn [className groupSize summaryOf].
  split; [exact Hnd|]. split; [exact Hall|]. split; [|split].
  - apply groups_partition; assumption.
  - intros r Hr. apply in_map_iff in Hr. destruct Hr as (c & <- & _).
    reflexivity.
  - apply groups_count; assumption.
Qed.

Lemma class_rows_partition_witness :
  Permutation
    (List.concat (map (fun r => groupOf (className r) schoolOfThree)
                      (classOverview (@rev string) total schoolOfThree)))
    schoolOfThree
  /\ list_sum (map groupSize (classOverview (@rev string) total schoolOfThree))
     = 3%nat.
Proof.
  assert (Hsort : forall l : list string, Permutation (rev l) l).
  { intro l. apply Permutation_sym. apply Permutation_rev. }
  destruct (class_rows_partition (@rev string) total schoolOfThree Hsort)
    as (_ & _ & Hgroups & _ & Hcount).
  split; [exact Hgroups | exact Hcount].
Defined.

(** ** Balance column *)

(** X3: the balance of a student row and of a class row get the same
    colour for the same amount, and the advance mark goes with blue; a
    student classified [unpaid] has a red balance, and one classified
    [paid] never has. *)
Theorem balance_colour_follows_status
        (feeViewType : FeeView) (stu : StudentWithPayments) :
  let balance := balanceOf feeViewType stu in
  (forall b, studentBalanceTone b = classBalanceTone b)
  /\ (showsAdvance balance = true <-> studentBalanceTone balance = text_blue)
  /\ (getDynamicStatus feeViewType stu = unpaid ->
      studentBalanceTone balance = text_red)
  /\ (getDynamicStatus feeViewType stu = paid ->
      studentBalanceTone balance <> text_red).
Proof.
  cbv zeta. split; [|split; [|split]].
  - intro b. unfold studentBalanceTone, classBalanceTone.
    destruct (Qltb b (- (9 # 1000))) eqn:Hlow, (Qltb (9 # 1000) b) eqn:Hhigh;
      try reflexivity.
    reflect_cmp. exfalso. lra.
  - unfold showsAdvance, studentBalanceTone.
    destruct (Qltb (balanceOf feeViewType stu) (- (9 # 1000)));
      [split; reflexivity|].
    destruct (Qltb (9 # 1000) (balanceOf feeViewType stu));
      split; intro H; discriminate H.
  - unfold getDynamicStatus, studentBalanceTone, balanceOf. cbv zeta.
    generalize (feesToConsider feeViewType stu) (paidOf stu). intros F P.
    status_cases F P; intro Hs; try discriminate Hs;
      destruct (Qltb (F - P) (- (9 # 1000))) eqn:Hlow,
               (Qltb (9 # 1000) (F - P)) eqn:Hhigh;
      try reflexivity; reflect_cmp; exfalso; lra.
  - unfold getDynamicStatus, studentBalanceTone, balanceOf. cbv zeta.
    generalize (feesToConsider feeViewType stu) (paidOf stu). intros F P.
    status_cases F P; intro Hs; try discriminate Hs;
      destruct (Qltb (F - P) (- (9 # 1000))) eqn:Hlow,
               (Qltb (9 # 1000) (F - P)) eqn:Hhigh;
      try discriminate; reflect_cmp; exfalso; lra.
Qed.

Lemma balance_colour_follows_status_witness :
  studentBalanceTone (balanceOf total (ledgerStudent 1400 900 (Some 0))) = text_red
  /\ studentBalanceTone (balanceOf due (ledgerStudent 1400 900 (Some 900))) <> text_red.
Proof.
  split.
  - apply (balance_colour_follows_status total (ledgerStudent 1400 900 (Some 0))).
    reflexivity.
  - apply (balance_colour_follows_status due (ledgerStudent 1400 900 (Some 900))).
    reflexivity.
Defined.

(** ** The two views of a student *)

Lemma due_le_total (todayISO : string) (l : list StudentFeeType) :
  (forall sft, In sft l -> countsAsDue todayISO sft = false ->
               0 <= netPayableForThisFee sft) ->
  calculated_due_fees_this_moment (resolveFees todayISO (Some l))
  <= calculated_total_assigned_fees_for_student (resolveFees todayISO (Some l)).
Proof.
  intro Hnet.
  rewrite resolve_total, resolve_due, (total_minus_due todayISO l).
  assert (0 <= sumQ (map netPayableForThisFee
                         (filter (fun sft => negb (countsAsDue todayISO sft)) l))).
  { apply sumQ_nonneg. intros x Hx.
    apply in_map_iff in Hx. destruct Hx as (sft & <- & Hin).
    apply filter_In in Hin. destruct Hin as [Hin Hnd].
    apply negb_true_iff in Hnd. apply (Hnet sft Hin Hnd). }
  lra.
Qed.

(** X4: for a student whose lines not yet due have a net payable of at
    least 0, the due view is never behind the assigned view: [paid] in
    the assigned view is [paid] in the due view, and [unpaid] in the due
    view is [unpaid] in the assigned view. *)
Theorem due_view_not_behind (todayISO : string) (s : StudentRow) :
  (forall l sft, student_fee_types s = Some l -> In sft l ->
                 countsAsDue todayISO sft = false ->
                 0 <= netPayableForThisFee sft) ->
  let stu := enrich todayISO s in
  (getDynamicStatus total stu = paid -> getDynamicStatus due stu = paid)
  /\ (getDynamicStatus due stu = unpaid -> getDynamicStatus total stu = unpaid).
Proof.
  intros Hnet. cbv zeta.
  assert (Hle : calculated_due_fees_total (enrich todayISO s)
                <= calculated_total_assigned_fees (enrich todayISO s)).
  { unfold enrich. cbn [calculated_due_fees_total calculated_total_assigned_fees].
    destruct (student_fee_types s) as [l|] eqn:El.
    - apply due_le_total. intros sft Hin Hnd. apply (Hnet l sft eq_refl Hin Hnd).
    - simpl. apply Qle_refl. }
  revert Hle. unfold getDynamicStatus. cbv zeta. cbn [feesToConsider].
  generalize (calculated_due_fees_total (enrich todayISO s))
             (calculated_total_assigned_fees (enrich todayISO s))
             (paidOf (enrich todayISO s)).
  intros D T P Hle.
  destruct (Qle_bool T (9 # 1000)) eqn:HT, (Qle_bool D (9 # 1000)) eqn:HD,
           (Qltb 0 P) eqn:HP, (Qle_bool T P) eqn:HTP, (Qle_bool D P) eqn:HDP,
           (Qltb P T) eqn:HPT, (Qltb P D) eqn:HPD;
    cbn [andb]; split; intro Hs; try discriminate Hs; try reflexivity;
    reflect_cmp; exfalso; lra.
Qed.

Lemma due_view_not_behind_witness :
  let s := {| name := "A. Student"; roll_no := None; academic_year := None;
              classes := None;
              payments := Some [payment 1400];
              student_fee_types := Some scenarioLines |} in
  getDynamicStatus due (enrich (isoDate june1) s) = paid.
Proof.
  cbv zeta.
  apply (due_view_not_behind (isoDate june1)).
  - intros l sft Hl Hin Hnd. injection Hl as <-.
    destruct Hin as [<- | [<- | []]]; vm_compute; discriminate.
  - reflexivity.
Defined.

(** ** Search boxes *)

Lemma append_assoc (a b c : string) : ((a ++ b) ++ c = a ++ (b ++ c))%string.
Proof.
  induction a as [|x a IH]; simpl; [|rewrite IH]; reflexivity.
Qed.

Lemma isPrefix_spec (p s : string) :
  isPrefix p s = true <-> exists post, s = (p ++ post)%string.
Proof.
  revert s. induction p as [|a p IH]; intro s; simpl.
  - split; [intros _; exists s; reflexivity | reflexivity].
  - destruct s as [|b s]; simpl.
    + split; [discriminate | intros [post H]; discriminate H].
    + rewrite andb_true_iff, IH. split.
      * intros [Hab [post ->]]. apply Ascii.eqb_eq in Hab. subst b.
        exists post. reflexivity.
      * intros [post H]. injection H as -> ->.
        split; [apply Ascii.eqb_refl | exists post; reflexivity].
Qed.

Lemma includesText_unfold (s term : string) :
  includesText s term
  = isPrefix term s
    || match s with
       | EmptyString => false
       | String _ rest => includesText rest term
       end.
Proof. destruct s; reflexivity. Qed.

Lemma includesText_spec (s term : string) :
  includesText s term = true
  <-> exists pre post, s = (pre ++ term ++ post)%string.
Proof.
  split.
  - induction s as [|a s IH]; rewrite includesText_unfold, orb_true_iff.
    + intros [H | H]; [|discriminate].
      apply isPrefix_spec in H. destruct H as [post ->].
      exists EmptyString, post. reflexivity.
    + intros [H | H].
      * apply isPrefix_spec in H. destruct H as [post ->].
        exists EmptyString, post. reflexivity.
      * destruct (IH H) as (pre & post & ->).
        exists (String a pre), post. reflexivity.
  - intros (pre & post & ->). induction pre as [|a pre IH].
    + rewrite includesText_unfold. apply orb_true_iff. left.
      apply isPrefix_spec. exists post. reflexivity.
    + rewrite includesText_unfold. apply orb_true_iff. right. exact IH.
Qed.

(** A text that contains [t2] contains every text that [t2] contains. *)
Lemma includesText_trans (s t2 t1 : string) :
  includesText s t2 = true -> includesText t2 t1 = true ->
  includesText s t1 = true.
Proof.
  intros H2 H1.
  apply includesText_spec in H2. destruct H2 as (pre & post & ->).
  apply includesText_spec in H1. destruct H1 as (pre' & post' & ->).
  apply includesText_spec. exists (pre ++ pre')%string, (post' ++ post)%string.
  rewrite !append_assoc. reflexivity.
Qed.

Lemma includes_only_empty (t : string) :
  includesText EmptyString t = true -> t = EmptyString.
Proof.
  destruct t; [reflexivity | discriminate].
Qed.

Lemma filter_all {A : Type} (f : A -> bool) (l : list A) :
  (forall x, In x l -> f x = true) -> filter f l = l.
Proof.
  induction l as [|x l IH]; intro H; simpl; [reflexivity|].
  rewrite (H x (or_introl eq_refl)), IH; [reflexivity|].
  intros y Hy. apply H. right. exact Hy.
Qed.

Lemma filter_refines {A : Type} (f g : A -> bool) (l : list A) :
  (forall x, f x = true -> g x = true) ->
  filter f l = filter f (filter g l).
Proof.
  intro H. induction l as [|x l IH]; simpl; [reflexivity|].
  destruct (f x) eqn:Ef.
  - rewrite (H x Ef). simpl. rewrite Ef, IH. reflexivity.
  - destruct (g x); simpl; [rewrite Ef|]; exact IH.
Qed.

Lemma matchesSearch_narrows (toLowerCase : string -> string)
      (term1 term2 : string) (stu : StudentWithPayments) :
  includesText term2 term1 = true ->
  matchesSearch toLowerCase term2 stu = true ->
  matchesSearch toLowerCase term1 stu = true.
Proof.
  intros Hsub. unfold matchesSearch.
  destruct (truthyText term1) eqn:E1; [|reflexivity].
  destruct (truthyText term2) eqn:E2.
  - rewrite !orb_true_iff.
    intros [[H | H] | H].
    + left; left. apply (includesText_trans _ term2); assumption.
    + left; right. destruct (roll_no (row stu)) as [r|]; [|discriminate].
      apply andb_true_iff in H. destruct H as [Hr H]. rewrite Hr. simpl.
      apply (includesText_trans _ term2); assumption.
    + right. apply andb_true_iff in H. destruct H as [Hc H]. rewrite Hc. simpl.
      apply (includesText_trans _ term2); assumption.
  - destruct term2; [|discriminate E2].
    apply includes_only_empty in Hsub. subst term1. discriminate E1.
Qed.

(** X5: the search box of the master ledger shows every student while
    the lowered term is empty, and a term that contains the previous one
    (both lowered) only narrows the list: the new list is the search run
    on the previous result, so it keeps its order and adds no student. *)
Theorem ledger_search_narrows
        (toLowerCase : string -> string) (students : list StudentWithPayments) :
  (forall term, toLowerCase term = EmptyString ->
                filteredStudentsForDisplay toLowerCase term students = students)
  /\ (forall term1 term2,
         includesText (toLowerCase term2) (toLowerCase term1) = true ->
         filteredStudentsForDisplay toLowerCase term2 students
         = filteredStudentsForDisplay toLowerCase term2
             (filteredStudentsForDisplay toLowerCase term1 students)
         /\ forall stu,
             In stu (filteredStudentsForDisplay toLowerCase term2 students) ->
             In stu (filteredStudentsForDisplay toLowerCase term1 students)).
Proof.
  split.
  - intros term Hempty. unfold filteredStudentsForDisplay. rewrite Hempty.
    apply filter_all. reflexivity.
  - intros term1 term2 Hsub. unfold filteredStudentsForDisplay. split.
    + apply filter_refines. intros stu.
      apply matchesSearch_narrows. exact Hsub.
    + intros stu Hin. apply filter_In in Hin. destruct Hin as [Hin Hm].
      apply filter_In. split; [exact Hin|].
      apply (matchesSearch_narrows toLowerCase _ _ stu Hsub Hm).
Qed.

Lemma ledger_search_narrows_witness :
  filteredStudentsForDisplay lowerText "" namedStudents = namedStudents
  /\ (In (studentNamed "Anita" (Some "7"%string))
         (filteredStudentsForDisplay lowerText "ANI" namedStudents) ->
      In (studentNamed "Anita" (Some "7"%string))
         (filteredStudentsForDisplay lowerText "an" namedStudents)).
Proof.
  destruct (ledger_search_narrows lowerText namedStudents) as [Hall Hnarrow].
  split.
  - apply Hall. reflexivity.
  - apply (Hnarrow "an"%string "ANI"%string). reflexivity.
Defined.

(** ** The record-payment page *)

Module PaymentPage.

Import RecordPayment.

Lemma search_step (toLowerCase : string -> string) (term1 term2 : string)
      (s : StudentListItem) :
  includesText term2 term1 = true ->
  includesText (toLowerCase (name s)) term2
  || match roll_no s with
     | Some r => truthyText r && includesText (toLowerCase r) term2
     | None => false
     end = true ->
  includesText (toLowerCase (name s)) term1
  || match roll_no s with
     | Some r => truthyText r && includesText (toLowerCase r) term1
     | None => false
     end = true.
Proof.
  intros Hsub. rewrite !orb_true_iff. intros [H | H].
  - left. apply (includesText_trans _ term2); assumption.
  - right. destruct (roll_no s) as [r|]; [|discriminate].
    apply andb_true_iff in H. destruct H as [Hr H]. rewrite Hr. simpl.
    apply (includesText_trans _ term2); assumption.
Qed.

(** X6: the student list of the record-payment page is the whole list
    while the lowered term is empty, and a term that contains the
    previous one (both lowered) only narrows it. *)
Theorem payment_search_narrows
        (toLowerCase : string -> string) (students : list StudentListItem) :
  (forall term, toLowerCase term = EmptyString ->
                filteredStudentList toLowerCase term students = students)
  /\ (forall term1 term2 s,
         includesText (toLowerCase term2) (toLowerCase term1) = true ->
         In s (filteredStudentList toLowerCase term2 students) ->
         In s (filteredStudentList toLowerCase term1 students)).
Proof.
  split.
  - intros term Hempty. unfold filteredStudentList. cbv zeta.
    rewrite Hempty. reflexivity.
  - intros term1 term2 s Hsub. unfold filteredStudentList. cbv zeta.
    destruct (truthyText (toLowerCase term1)) eqn:E1.
    + destruct (truthyText (toLowerCase term2)) eqn:E2.
      * rewrite !filter_In. intros [Hin Hm]. split; [exact Hin|].
        apply (search_step toLowerCase _ _ s Hsub Hm).
      * destruct (toLowerCase term2); [|discriminate E2].
        apply includes_only_empty in Hsub. rewrite Hsub in E1. discriminate E1.
    + destruct (truthyText (toLowerCase term2)); [|exact (fun H => H)].
      intro Hin. apply filter_In in Hin. apply Hin.
Qed.

Lemma payment_search_narrows_witness :
  filteredStudentList lowerText "" listedStudents = listedStudents
  /\ (In sampleStudent (filteredStudentList lowerText "STUD" [sampleStudent]) ->
      In sampleStudent (filteredStudentList lowerText "st" [sampleStudent])).
Proof.
  destruct (payment_search_narrows lowerText listedStudents) as [Hall _].
  destruct (payment_search_narrows lowerText [sampleStudent]) as [_ Hnarrow].
  split.
  - apply Hall. reflexivity.
  - apply (Hnarrow "st"%string "STUD"%string). reflexivity.
Defined.

Lemma selected_is_picked
      (schoolId : option string) (student : StudentListItem) (w : World)
      (stu : StudentListItem) :
  selectedStudent (form (handleStudentSelection schoolId student w)) = Some stu ->
  stu = student /\ schoolId = Some (school_id stu).
Proof.
  unfold handleStudentSelection.
  destruct schoolId as [sid|];
    [destruct (String.eqb_spec (school_id student) sid) as [E | E]|];
    simpl; intro H; try discriminate H.
  injection H as <-. subst sid. split; reflexivity.
Qed.

(** X7: picking a student never selects one of another school: after
    [handleStudentSelection] the selected student, if any, is the one
    picked and belongs to the page's school; a student of another school
    clears the selection with an error.  A successful pick empties the
    payment form; the payments table is not touched. *)
Theorem selection_stays_in_school
        (schoolId : option string) (student : StudentListItem) (w : World) :
  let w' := handleStudentSelection schoolId student w in
  (forall stu, selectedStudent (form w') = Some stu ->
               stu = student /\ schoolId = Some (school_id stu))
  /\ (schoolId <> Some (school_id student) ->
      selectedStudent (form w') = None
      /\ exists msg, toasts w' = toasts w ++ [toast_error msg])
  /\ (schoolId = Some (school_id student) ->
      selectedStudent (form w') = Some student
      /\ amountPaid (form w') = EmptyString
      /\ modeOfPayment (form w') = "cash"%string
      /\ description (form w') = EmptyString
      /\ manualReceiptNumber (form w') = EmptyString
      /\ toasts w' = toasts w)
  /\ payments w' = payments w.
Proof.
  cbv zeta. unfold handleStudentSelection.
  destruct schoolId as [sid|];
    [destruct (String.eqb_spec (school_id student) sid) as [E | E]|];
    simpl; (split; [|split; [|split; [|reflexivity]]]).
  - intros stu H. injection H as <-. subst sid. split; reflexivity.
  - intro H. exfalso. apply H. subst sid. reflexivity.
  - intros _. repeat split; reflexivity.
  - intros stu H. discriminate H.
  - intros _. split; [reflexivity | eexists; reflexivity].
  - intro H. exfalso. apply E. injection H as ->. reflexivity.
  - intros stu H. discriminate H.
  - intros _. split; [reflexivity | eexists; reflexivity].
  - intro H. discriminate H.
Qed.

Lemma selection_stays_in_school_witness :
  selectedStudent (form (handleStudentSelection (Some "school-1"%string) sampleStudent
                           (sampleWorld "900")))
  = Some sampleStudent
  /\ amountPaid (form (handleStudentSelection (Some "school-1"%string) sampleStudent
                         (sampleWorld "900")))
     = EmptyString
  /\ selectedStudent (form (handleStudentSelection (Some "school-2"%string) sampleStudent
                              (sampleWorld "900")))
     = None.
Proof.
  destruct (selection_stays_in_school (Some "school-1"%string) sampleStudent
                                      (sampleWorld "900"))
    as (_ & _ & Hsame & _).
  destruct (selection_stays_in_school (Some "school-2"%string) sampleStudent
                                      (sampleWorld "900"))
    as (_ & Hother & _).
  destruct (Hsame eq_refl) as (Hsel & Hamount & _).
  split; [exact Hsel|]. split; [exact Hamount|].
  apply Hother. discriminate.
Defined.

(** The three ways a submission ends: turned down before the backend is
    called, refused by the backend, or recorded. *)
Lemma submit_outcomes
      (Number parseFloat : string -> number) (trim : string -> string)
      (env : Env) (w : World) :
  let w' := handleSubmitPayment Number parseFloat trim env w in
  (form w' = form w /\ payments w' = payments w
   /\ exists msg, toasts w' = toasts w ++ [toast_error msg])
  \/ (answer env <> inserted
      /\ payments w' = payments w
      /\ selectedStudent (form w') = selectedStudent (form w)
      /\ amountPaid (form w') = amountPaid (form w)
      /\ modeOfPayment (form w') = modeOfPayment (form w)
      /\ description (form w') = description (form w)
      /\ manualReceiptNumber (form w') = manualReceiptNumber (form w)
      /\ exists msg,
          toasts w' = toasts w ++ [toast_loading "Recording payment..."]
                               ++ [toast_error msg])
  \/ (answer env = inserted
      /\ invalidAmount Number (amountPaid (form w)) = false
      /\ amountPaid (form w') = EmptyString
      /\ selectedStudent (form w') = selectedStudent (form w)
      /\ exists stu school row,
          selectedStudent (form w) = Some stu
          /\ schoolId env = Some school
          /\ payments w' = payments w ++ [row]
          /\ pi_student_id row = id stu
          /\ pi_school_id row = school
          /\ pi_amount_paid row = parseFloat (amountPaid (form w))
          /\ pi_mode_of_payment row = modeOfPayment (form w)
          /\ pi_date row = now_iso env
          /\ pi_receipt_number row
             = (if nonEmpty (trim (manualReceiptNumber (form w)))
                then trim (manualReceiptNumber (form w))
                else "R-" ++ now_ms env)%string
          /\ toasts w'
             = toasts w ++ [toast_loading "Recording payment..."]
                 ++ [toast_success
                       ("Payment recorded. Receipt #: " ++ pi_receipt_number row)]).
Proof.
  cbv zeta. unfold handleSubmitPayment. cbv zeta.
  destruct (selectedStudent (form w)) as [stu|] eqn:Esel;
    [|left; repeat split; eexists; reflexivity].
  destruct (nonEmpty (id stu));
    [|left; repeat split; eexists; reflexivity].
  destruct (schoolId env) as [[|c school]|] eqn:Eschool;
    try (left; repeat split; eexists; reflexivity).
  destruct (invalidAmount Number (amountPaid (form w))) eqn:Einv;
    [left; repeat split; eexists; reflexivity|].
  destruct (answer env) as [|message|message] eqn:Eans.
  - right; right. cbn [form payments toasts amountPaid selectedStudent].
    repeat split.
    eexists stu, (String c school), _.
    cbn [pi_student_id pi_school_id pi_amount_paid pi_mode_of_payment pi_date
         pi_receipt_number].
    rewrite <- app_assoc. repeat split.
  - right; left. cbn [form payments toasts amountPaid selectedStudent modeOfPayment
                      description manualReceiptNumber].
    repeat split; try discriminate.
    eexists. rewrite <- app_assoc. reflexivity.
  - right; left. cbn [form payments toasts amountPaid selectedStudent modeOfPayment
                      description manualReceiptNumber].
    repeat split; try discriminate.
    eexists. rewrite <- app_assoc. reflexivity.
Qed.

(** X8: a payment cannot be recorded twice by submitting again: after a
    submission that recorded a row, and equally right after picking a
    student, the amount field is empty, so the next submission records
    nothing until an amount is typed. *)
Theorem no_second_row_without_amount
        (Number parseFloat : string -> number) (trim : string -> string)
        (env env' : Env) (w : World) :
  let submit := handleSubmitPayment Number parseFloat trim in
  (payments (submit env w) <> payments w ->
   payments (submit env' (submit env w)) = payments (submit env w))
  /\ (forall schoolId student,
         payments (submit env (handleStudentSelection schoolId student w))
         = payments w).
Proof.
  cbv zeta. split.
  - intro Hchanged.
    destruct (submit_outcomes Number parseFloat trim env w)
      as [(_ & Hsame & _) | [(_ & Hsame & _) | (_ & _ & Hempty & _)]];
      try contradiction.
    destruct (RecordPaymentFacts.submit_rejects Number parseFloat trim env'
                (handleSubmitPayment Number parseFloat trim env w)) as [msg ->].
    + unfold invalidAmount. rewrite Hempty. reflexivity.
    + reflexivity.
  - intros sid student.
    unfold handleSubmitPayment, handleStudentSelection. cbv zeta.
    destruct (match sid with
              | Some s0 => String.eqb (school_id student) s0
              | None => false
              end); cbn [form selectedStudent amountPaid payments notify].
    + destruct (nonEmpty (id student)); [|reflexivity].
      destruct (schoolId env) as [[|c school]|]; reflexivity.
    + reflexivity.
Qed.

Lemma no_second_row_without_amount_witness :
  payments (handleSubmitPayment decimalNumber decimalNumber trimAscii sampleEnv
              (handleSubmitPayment decimalNumber decimalNumber trimAscii sampleEnv
                 (sampleWorld "250.50")))
  = payments (handleSubmitPayment decimalNumber decimalNumber trimAscii sampleEnv
                (sampleWorld "250.50")).
Proof.
  apply (no_second_row_without_amount decimalNumber decimalNumber trimAscii
           sampleEnv sampleEnv (sampleWorld "250.50")).
  discriminate.
Defined.

Lemma appended_differs {A : Type} (l : list A) (x : A) : l ++ [x] <> l.
Proof.
  intro H. rewrite <- (app_nil_r l) in H at 2.
  apply app_inv_head in H. discriminate H.
Qed.

(** X9: every submission that records no row (it is turned down by a
    check, or the backend refuses it with an error or an exception)
    keeps the student, amount, mode, description and receipt number of
    the form and ends with an error notice; this holds whatever the
    backend would have answered. *)
Theorem failed_submission_keeps_form
        (Number parseFloat : string -> number) (trim : string -> string)
        (env : Env) (w : World) :
  let w' := handleSubmitPayment Number parseFloat trim env w in
  payments w' = payments w ->
  selectedStudent (form w') = selectedStudent (form w)
  /\ amountPaid (form w') = amountPaid (form w)
  /\ modeOfPayment (form w') = modeOfPayment (form w)
  /\ description (form w') = description (form w)
  /\ manualReceiptNumber (form w') = manualReceiptNumber (form w)
  /\ exists before msg, toasts w' = toasts w ++ before ++ [toast_error msg].
Proof.
  cbv zeta. intro Hnone.
  destruct (submit_outcomes Number parseFloat trim env w)
    as [(Hform & _ & msg & Htoast)
       | [(_ & _ & Hsel & Ham & Hmode & Hdesc & Hrec & msg & Htoast)
         | (_ & _ & _ & _ & stu & school & row & _ & _ & Hpay & _)]].
  - rewrite Hform. repeat split; try reflexivity.
    exists [], msg. exact Htoast.
  - repeat split; try assumption.
    exists [toast_loading "Recording payment..."], msg. exact Htoast.
  - exfalso. rewrite Hpay in Hnone. apply (appended_differs _ _ Hnone).
Qed.

Lemma failed_submission_keeps_form_witness :
  amountPaid (form (handleSubmitPayment decimalNumber decimalNumber trimAscii
                      (envAnswering (insert_error "duplicate receipt"))
                      (sampleWorld "250.50")))
  = "250.50"%string
  /\ amountPaid (form (handleSubmitPayment decimalNumber decimalNumber trimAscii
                         sampleEnv (sampleWorld "-5")))
     = "-5"%string.
Proof.
  split.
  - apply (failed_submission_keeps_form decimalNumber decimalNumber trimAscii
             (envAnswering (insert_error "duplicate receipt"))
             (sampleWorld "250.50")).
    reflexivity.
  - apply (failed_submission_keeps_form decimalNumber decimalNumber trimAscii
             sampleEnv (sampleWorld "-5")).
    reflexivity.
Defined.

(** X10: a recorded payment is one new row at the end of the table,
    for the selected student and the page's school, with the parsed
    amount; its receipt number is never empty: it is the trimmed number
    typed in, or [R-] followed by the clock when none was typed; the
    success notice names it. *)
Theorem recorded_row_has_receipt
        (Number parseFloat : string -> number) (trim : string -> string)
        (env : Env) (w : World) :
  let w' := handleSubmitPayment Number parseFloat trim env w in
  payments w' <> payments w ->
  exists stu row,
    selectedStudent (form w) = Some stu
    /\ payments w' = payments w ++ [row]
    /\ pi_student_id row = id stu
    /\ schoolId env = Some (pi_school_id row)
    /\ pi_amount_paid row = parseFloat (amountPaid (form w))
    /\ pi_receipt_number row <> EmptyString
    /\ (trim (manualReceiptNumber (form w)) <> EmptyString ->
        pi_receipt_number row = trim (manualReceiptNumber (form w)))
    /\ (trim (manualReceiptNumber (form w)) = EmptyString ->
        pi_receipt_number row = ("R-" ++ now_ms env)%string)
    /\ exists before,
        toasts w'
        = before ++ [toast_success
                       ("Payment recorded. Receipt #: " ++ pi_receipt_number row)].
Proof.
  cbv zeta. intro Hchanged.
  destruct (submit_outcomes Number parseFloat trim env w)
    as [(_ & Hsame & _) | [(_ & Hsame & _) | (_ & _ & _ & _ & Hrow)]];
    try contradiction.
  destruct Hrow as (stu & school & row & Hsel & Hschool & Hpay & Hid & Hsch
                    & Hamount & _ & _ & Hreceipt & Htoast).
  exists stu, row. repeat apply conj; try assumption.
  - rewrite Hschool, Hsch. reflexivity.
  - rewrite Hreceipt.
    destruct (trim (manualReceiptNumber (form w))); simpl; discriminate.
  - intro Hne. rewrite Hreceipt.
    destruct (trim (manualReceiptNumber (form w))); [contradiction | reflexivity].
  - intro He. rewrite Hreceipt, He. reflexivity.
  - exists (toasts w ++ [toast_loading "Recording payment..."]).
    rewrite Htoast, app_assoc. reflexivity.
Qed.

Lemma recorded_row_has_receipt_witness :
  exists row,
    payments (handleSubmitPayment decimalNumber decimalNumber trimAscii sampleEnv
                (sampleWorld "250.50"))
    = [row]
    /\ pi_receipt_number row = "R-1717230600000"%string.
Proof.
  assert (Hchanged :
            payments (handleSubmitPayment decimalNumber decimalNumber trimAscii
                        sampleEnv (sampleWorld "250.50"))
            <> payments (sampleWorld "250.50")) by discriminate.
  destruct (recorded_row_has_receipt decimalNumber decimalNumber trimAscii sampleEnv
              (sampleWorld "250.50") Hchanged)
    as (stu & row & _ & Hpay & _ & _ & _ & _ & _ & Hauto & _).
  exists row. split; [exact Hpay|]. apply Hauto. reflexivity.
Defined.

(** X11: payments stay within the school: when the student of the form
    was picked by [handleStudentSelection] for the school the page
    submits for, every recorded row carries that student's id and the
    student's own school. *)
Theorem recorded_row_in_students_school
        (Number parseFloat : string -> number) (trim : string -> string)
        (env : Env) (student : StudentListItem) (before w : World) :
  selectedStudent (form w)
  = selectedStudent (form (handleStudentSelection (schoolId env) student before)) ->
  payments (handleSubmitPayment Number parseFloat trim env w) <> payments w ->
  exists row,
    payments (handleSubmitPayment Number parseFloat trim env w) = payments w ++ [row]
    /\ pi_student_id row = id student
    /\ pi_school_id row = school_id student.
Proof.
  intros Hpicked Hchanged.
  destruct (submit_outcomes Number parseFloat trim env w)
    as [(_ & Hsame & _) | [(_ & Hsame & _) | (_ & _ & _ & _ & Hrow)]];
    try contradiction.
  destruct Hrow as (stu & school & row & Hsel & Hschool & Hpay & Hid & Hsch & _).
  rewrite Hsel in Hpicked. symmetry in Hpicked.
  destruct (selected_is_picked (schoolId env) student before stu Hpicked)
    as [-> Hsid].
  exists row. split; [exact Hpay|]. split; [exact Hid|].
  rewrite Hschool in Hsid. injection Hsid as <-. exact Hsch.
Qed.

Lemma recorded_row_in_students_school_witness :
  exists row,
    payments (handleSubmitPayment decimalNumber decimalNumber trimAscii sampleEnv
                (sampleWorld "250.50"))
    = payments (sampleWorld "250.50") ++ [row]
    /\ pi_student_id row = "stu-1"%string
    /\ pi_school_id row = "school-1"%string.
Proof.
  apply (recorded_row_in_students_school decimalNumber decimalNumber trimAscii
           sampleEnv sampleStudent (sampleWorld "") (sampleWorld "250.50")).
  - reflexivity.
  - discriminate.
Defined.

End PaymentPage.

(** ** Lines of the export *)

Lemma includes_app (c : ascii) (a b : string) :
  includes c (a ++ b) = includes c a || includes c b.
Proof.
  induction a as [|x a IH]; simpl; [reflexivity|].
  rewrite IH. apply orb_assoc.
Qed.

Lemma countChar_app (c : ascii) (a b : string) :
  countChar c (a ++ b) = (countChar c a + countChar c b)%nat.
Proof.
  induction a as [|x a IH]; simpl; [reflexivity|]. rewrite IH. lia.
Qed.

Lemma countChar_absent (c : ascii) (s : string) :
  includes c s = false -> countChar c s = O.
Proof.
  induction s as [|x s IH]; simpl; [reflexivity|].
  intro H. apply orb_false_iff in H. destruct H as [Hx Hs].
  rewrite Hx, (IH Hs). reflexivity.
Qed.

Lemma concat_without (c : ascii) (sep : string) (l : list string) :
  includes c sep = false ->
  (forall x, In x l -> includes c x = false) ->
  includes c (String.concat sep l) = false.
Proof.
  intros Hsep. induction l as [|x l IH]; intro Hall; [reflexivity|].
  destruct l as [|y l].
  - simpl. apply Hall. left. reflexivity.
  - change (String.concat sep (x :: y :: l))
      with (x ++ sep ++ String.concat sep (y :: l))%string.
    rewrite !includes_app, Hsep, (Hall x (or_introl eq_refl)), IH; [reflexivity|].
    intros z Hz. apply Hall. right. exact Hz.
Qed.

Lemma quoted_without_newline (cell : Cell) :
  includes newline (cellText cell) = false ->
  includes newline (cellText (quoteCell cell)) = false.
Proof.
  destruct cell as [s|]; simpl; [|reflexivity].
  intro H. destruct (includes comma s); simpl; [|exact H].
  rewrite includes_app, H. reflexivity.
Qed.

Lemma csvLine_without_newline (r : list Cell) :
  cellsHave newline r = false -> includes newline (csvLine r) = false.
Proof.
  intro H. unfold csvLine, join. apply concat_without; [reflexivity|].
  intros x Hx. apply in_map_iff in Hx. destruct Hx as (q & <- & Hq).
  apply in_map_iff in Hq. destruct Hq as (cell & <- & Hcell).
  apply quoted_without_newline.
  unfold cellsHave in H.
  destruct (includes newline (cellText cell)) eqn:E; [|reflexivity].
  assert (existsb (fun cell => includes newline (cellText cell)) r = true);
    [|congruence].
  apply existsb_exists. exists cell. split; assumption.
Qed.

Lemma linesAfter_count (rows : list (list Cell)) :
  (forall r, In r rows -> cellsHave newline r = false) ->
  countChar newline (linesAfter rows) = List.length rows.
Proof.
  induction rows as [|r rows IH]; intro Hall; [reflexivity|].
  simpl. rewrite countChar_app, IH by (intros x Hx; apply Hall; right; exact Hx).
  rewrite (countChar_absent newline (csvLine r)); [reflexivity|].
  apply csvLine_without_newline. apply Hall. left. reflexivity.
Qed.

(** X12: when no cell of the header or of a row contains a line break,
    the exported text has exactly one line per student after the header
    line: it contains as many line breaks as there are students. *)
Theorem export_one_line_per_student
        (header : list Cell) (exportRow : FeeView -> StudentWithPayments -> list Cell)
        (view : LedgerView) (selectedClassId : string) (feeViewType : FeeView)
        (nowISO : string) (students : list StudentWithPayments)
        (csv filename success : string) :
  cellsHave newline header = false ->
  (forall stu, In stu students ->
               cellsHave newline (exportRow feeViewType stu) = false) ->
  handleExport header exportRow view selectedClassId feeViewType nowISO students
  = Download csv filename success ->
  countChar newline csv = List.length students.
Proof.
  intros Hheader Hrows Hrun. unfold handleExport in Hrun.
  destruct students as [|stu rest]; [discriminate Hrun|].
  injection Hrun as <- _ _. unfold csvOf.
  change (countChar newline
            (String.concat (String newline EmptyString)
               (csvLine header
                  :: map csvLine (map (exportRow feeViewType) (stu :: rest))))
          = List.length (stu :: rest)).
  rewrite concat_lines, countChar_app, linesAfter_count.
  - rewrite (countChar_absent newline (csvLine header)), length_map; [reflexivity|].
    apply csvLine_without_newline. exact Hheader.
  - intros r Hr. apply in_map_iff in Hr. destruct Hr as (s & <- & Hs).
    apply Hrows. exact Hs.
Qed.

Lemma export_one_line_per_student_witness :
  countChar newline sampleCsv = 2%nat.
Proof.
  apply (export_one_line_per_student sampleHeader sampleRow school_view "" due
           "2024-06-01T08:30:00.000Z" sampleStudents sampleCsv
           "master-ledger-school-all-due-2024-06-01.csv"
           "CSV exported successfully!").
  - reflexivity.
  - intros stu [<- | [<- | []]]; reflexivity.
  - reflexivity.
Defined.

(** ** The registration form *)

Module RegistrationForm.

Import Registration.

Lemma existsb_eqb_In (x : string) (l : list string) :
  existsb (String.eqb x) l = true <-> In x l.
Proof.
  rewrite existsb_exists. split.
  - intros (y & Hy & E). apply String.eqb_eq in E. subst y. exact Hy.
  - intro H. exists x. split; [exact H | apply String.eqb_refl].
Qed.

Lemma existsb_eqb_notIn (x : string) (l : list string) :
  existsb (String.eqb x) l = false <-> ~ In x l.
Proof.
  rewrite <- existsb_eqb_In. destruct (existsb (String.eqb x) l); split;
    congruence.
Qed.

Lemma In_without (id x : string) (l : list string) :
  In x (filter (fun fid => negb (String.eqb fid id)) l) <-> In x l /\ x <> id.
Proof.
  rewrite filter_In, negb_true_iff, String.eqb_neq. reflexivity.
Qed.

(** X13: ticking a fee type flips whether it is selected and changes
    nothing else: the other ids stay in or out and keep their order, a
    selection without repeats stays without repeats, and ticking twice
    gives back a selection that did not contain the id. *)
Theorem toggle_flips_one (id : string) (prev : list string) :
  (In id (toggleFeeTypeSelection id prev) <-> ~ In id prev)
  /\ (forall x, x <> id -> (In x (toggleFeeTypeSelection id prev) <-> In x prev))
  /\ filter (fun fid => negb (String.eqb fid id)) (toggleFeeTypeSelection id prev)
     = filter (fun fid => negb (String.eqb fid id)) prev
  /\ (NoDup prev -> NoDup (toggleFeeTypeSelection id prev))
  /\ (~ In id prev ->
      toggleFeeTypeSelection id (toggleFeeTypeSelection id prev) = prev).
Proof.
  unfold toggleFeeTypeSelection.
  destruct (existsb (String.eqb id) prev) eqn:E.
  - apply existsb_eqb_In in E. split; [|split; [|split; [|split]]].
    + rewrite In_without. split; [intros [_ H]; congruence | contradiction].
    + intros x Hx. rewrite In_without. tauto.
    + induction prev as [|y prev IH]; [reflexivity|]. simpl.
      destruct (String.eqb y id) eqn:Ey; simpl.
      * clear IH E. induction prev as [|z prev IH]; [reflexivity|]. simpl.
        destruct (String.eqb z id) eqn:Ez; simpl; [exact IH|].
        rewrite Ez. simpl. f_equal. exact IH.
      * rewrite Ey. simpl. f_equal.
        clear IH E. induction prev as [|z prev IH]; [reflexivity|]. simpl.
        destruct (String.eqb z id) eqn:Ez; simpl; [exact IH|].
        rewrite Ez. simpl. f_equal. exact IH.
    + intro Hnd. apply NoDup_filter. exact Hnd.
    + contradiction.
  - apply existsb_eqb_notIn in E. split; [|split; [|split; [|split]]].
    + rewrite in_app_iff. simpl. tauto.
    + intros x Hx. rewrite in_app_iff. simpl. split; [|tauto].
      intros [H | [H | []]]; [exact H | congruence].
    + rewrite filter_app. simpl. rewrite String.eqb_refl. simpl.
      apply app_nil_r.
    + intro Hnd. apply NoDup_app; [exact Hnd | repeat constructor; intros [] |].
      intros x Hx [<- | []]. contradiction.
    + intros _.
      assert (E' : existsb (String.eqb id) (prev ++ [id]) = true).
      { apply existsb_eqb_In. apply in_app_iff. right. left. reflexivity. }
      rewrite E', filter_app. simpl. rewrite String.eqb_refl. simpl.
      rewrite app_nil_r. apply filter_all.
      intros x Hx. apply negb_true_iff. apply String.eqb_neq.
      intros ->. contradiction.
Qed.

Lemma toggle_flips_one_witness :
  toggleFeeTypeSelection "bus" (toggleFeeTypeSelection "bus" ["tuition"%string])
  = ["tuition"%string]
  /\ NoDup (toggleFeeTypeSelection "bus" ["tuition"%string]).
Proof.
  destruct (toggle_flips_one "bus" ["tuition"%string]) as (_ & _ & _ & Hnd & Htwice).
  split.
  - apply Htwice. intros [H | []]. discriminate H.
  - apply Hnd. repeat constructor. intros [].
Defined.

(** The ticked fee types of a class whose ids do not repeat have ids
    that do not repeat. *)
Lemma ticked_ids_distinct (sel : list string) (fts : list MasterLedger.FeeTypeRow) :
  NoDup (map MasterLedger.ft_id fts) ->
  NoDup (map MasterLedger.ft_id
             (filter (fun ft => existsb (String.eqb (MasterLedger.ft_id ft)) sel) fts)).
Proof.
  intro Hids. induction fts as [|ft fts IH]; [constructor|].
  cbn [map] in Hids. apply NoDup_cons_iff in Hids. destruct Hids as [Hft Hrest].
  cbn [filter].
  destruct (existsb (String.eqb (MasterLedger.ft_id ft)) sel);
    [|exact (IH Hrest)].
  cbn [map]. apply NoDup_cons; [|exact (IH Hrest)].
  intro Hin. apply Hft. apply in_map_iff in Hin.
  destruct Hin as (other & Eid & Hother). apply filter_In in Hother.
  apply in_map_iff. exists other. split; [exact Eid | apply Hother].
Qed.

(** With ids that do not repeat, looking a fee type up by its id finds
    that fee type. *)
Lemma find_by_id (fts : list MasterLedger.FeeTypeRow) (ft : MasterLedger.FeeTypeRow) :
  NoDup (map MasterLedger.ft_id fts) -> In ft fts ->
  find (fun x => String.eqb (MasterLedger.ft_id x) (MasterLedger.ft_id ft)) fts
  = Some ft.
Proof.
  induction fts as [|y fts IH]; simpl; intros Hnd Hin; [contradiction|].
  inversion Hnd as [|? ? Hy Hl]; subst.
  destruct Hin as [-> | Hin].
  - rewrite String.eqb_refl. reflexivity.
  - destruct (String.eqb_spec (MasterLedger.ft_id y) (MasterLedger.ft_id ft))
      as [E | E].
    + exfalso. apply Hy. rewrite E. apply in_map. exact Hin.
    + apply IH; assumption.
Qed.

Lemma fold_left_map_in {A B C : Type} (f : C -> A -> C) (g : C -> B -> C)
      (h : A -> B) (l : list A) :
  (forall x, In x l -> forall a, f a x = g a (h x)) ->
  forall a, fold_left f l a = fold_left g (map h l) a.
Proof.
  induction l as [|x l IH]; simpl; intros H a; [reflexivity|].
  rewrite <- (H x (or_introl eq_refl)). apply IH.
  intros y Hy. apply H. right. exact Hy.
Qed.

(** X14: the [total_fees] written with a student is the running sum of
    the links written for that student, taken in the order of the
    class's fee-type list: when the fee-type ids of the class do not
    repeat and the ticked ids are distinct ids of the class, the links in
    class order are a rearrangement of the inserted links, and the total
    is obtained from 0 by adding each link's assigned amount and then
    subtracting its discount, rounding after each operation. *)
Theorem stored_total_is_running_sum_of_links
        (round : Q -> Q) (trim : string -> string)
        (studentId schoolId : string)
        (fts : list MasterLedger.FeeTypeRow) (sel : list string)
        (adj : Adjustments) :
  NoDup (map MasterLedger.ft_id fts) ->
  NoDup sel ->
  (forall id, In id sel -> In id (map MasterLedger.ft_id fts)) ->
  let inClassOrder :=
    map MasterLedger.ft_id
        (filter (fun ft => existsb (String.eqb (MasterLedger.ft_id ft)) sel) fts) in
  let ordered := feeLinksToInsert trim studentId schoolId fts inClassOrder adj in
  Permutation inClassOrder sel
  /\ Permutation ordered (feeLinksToInsert trim studentId schoolId fts sel adj)
  /\ totalFeesCalculated round fts sel adj
     = fold_left
         (fun sum link =>
            round (round (sum + link_assigned_amount link) - link_discount link))
         ordered 0.
Proof.
  intros Hids Hsel Hsub. cbv zeta.
  assert (Hperm :
    Permutation
      (map MasterLedger.ft_id
           (filter (fun ft => existsb (String.eqb (MasterLedger.ft_id ft)) sel) fts))
      sel).
  { apply NoDup_Permutation; [apply ticked_ids_distinct; exact Hids | exact Hsel |].
    intro id. rewrite in_map_iff. split.
    - intros (ft & <- & Hft). apply filter_In in Hft.
      apply existsb_eqb_In. apply Hft.
    - intro Hid. destruct (proj1 (in_map_iff _ _ _) (Hsub id Hid))
        as (ft & E & Hft).
      exists ft. split; [exact E|]. apply filter_In. split; [exact Hft|].
      apply existsb_eqb_In. rewrite E. exact Hid. }
  split; [exact Hperm|]. split.
  - unfold feeLinksToInsert. apply Permutation_map. exact Hperm.
  - unfold totalFeesCalculated, feeLinksToInsert. rewrite map_map.
    apply fold_left_map_in. intros ft Hft a. apply filter_In in Hft.
    cbn [link_assigned_amount link_discount].
    rewrite (find_by_id fts ft Hids (proj1 Hft)). reflexivity.
Qed.

Lemma stored_total_is_running_sum_of_links_witness :
  Permutation
    (feeLinksToInsert (fun s => s) "stu-1" "school-1" classFeeTypes
                      ["tuition"; "bus"]%string tuitionDiscount)
    (feeLinksToInsert (fun s => s) "stu-1" "school-1" classFeeTypes
                      ["bus"; "tuition"]%string tuitionDiscount)
  /\ totalFeesCalculated Doubles.roundDouble classFeeTypes
                         ["bus"; "tuition"]%string tuitionDiscount
     == 1400.
Proof.
  assert (Hids : NoDup (map MasterLedger.ft_id classFeeTypes)).
  { repeat constructor; simpl; intuition discriminate. }
  assert (Hsel : NoDup ["bus"; "tuition"]%string).
  { repeat constructor; simpl; intuition discriminate. }
  assert (Hsub : forall id, In id ["bus"; "tuition"]%string ->
                            In id (map MasterLedger.ft_id classFeeTypes)).
  { intros id [<- | [<- | []]]; simpl; tauto. }
  destruct (stored_total_is_running_sum_of_links
              Doubles.roundDouble (fun s => s) "stu-1" "school-1"
              classFeeTypes ["bus"; "tuition"]%string tuitionDiscount
              Hids Hsel Hsub) as (_ & Hlinks & Htotal).
  split; [exact Hlinks|].
  rewrite Htotal. vm_compute. reflexivity.
Defined.

(** X16: the registration page and the master ledger agree on the net
    payable of a line that has no stored net amount, unless its assigned
    amount is 0; and a stored net amount other than 0 is what the
    registration page shows, whatever the assigned amount and discount
    are. *)
Theorem pages_agree_on_net (sft : StudentFeeType) :
  (net_payable_amount sft = None ->
   (forall a, assigned_amount sft = Some a -> ~ a == 0) ->
   ManageStudents.net_payable_amount_of sft == netPayableForThisFee sft)
  /\ (forall n, net_payable_amount sft = Some n -> ~ n == 0 ->
                ManageStudents.net_payable_amount_of sft = n).
Proof.
  split.
  - intros Hnone Hassigned.
    unfold ManageStudents.net_payable_amount_of, ManageStudents.assigned_amount_of,
      netPayableForThisFee, assignedAmount, discountOf.
    rewrite Hnone.
    destruct (assigned_amount sft) as [a|]; cbn [or_num nullish].
    + assert (T : truthy a = true).
      { unfold truthy. apply negb_true_iff.
        destruct (Qeq_bool a 0) eqn:E; [|reflexivity].
        apply Qeq_bool_iff in E. exfalso. apply (Hassigned a eq_refl E). }
      rewrite T. reflexivity.
    + destruct (default_amount_of (fee_type sft)) as [d|]; cbn [nullish].
      * rewrite or_zero_Some. reflexivity.
      * reflexivity.
  - intros n Hn Hnz. unfold ManageStudents.net_payable_amount_of.
    rewrite Hn. cbn [or_num].
    assert (T : truthy n = true).
    { unfold truthy. apply negb_true_iff.
      destruct (Qeq_bool n 0) eqn:E; [|reflexivity].
      apply Qeq_bool_iff in E. contradiction. }
    rewrite T. reflexivity.
Qed.

Lemma pages_agree_on_net_witness :
  ManageStudents.net_payable_amount_of
    (feeLine (Some 1000) (Some 100) (Some (feeTypeOn (Some 1200) None)))
  == netPayableForThisFee
       (feeLine (Some 1000) (Some 100) (Some (feeTypeOn (Some 1200) None))).
Proof.
  apply (pages_agree_on_net
           (feeLine (Some 1000) (Some 100) (Some (feeTypeOn (Some 1200) None)))).
  - reflexivity.
  - intros a Ha. injection Ha as <-. discriminate.
Defined.

(** *** Deleting a student *)

Lemma In_deleteStudentRows (id school : string) (rows : list StudentDisplay)
      (r : StudentDisplay) :
  In r (deleteStudentRows id school rows)
  <-> In r rows /\ ~ (sd_id r = id /\ sd_school_id r = school).
Proof.
  unfold deleteStudentRows.
  rewrite filter_In, negb_true_iff, andb_false_iff, !String.eqb_neq.
  split; intros [Hin H]; split; try exact Hin.
  - intros [H1 H2]. destruct H; contradiction.
  - destruct (String.eqb_spec (sd_id r) id) as [E1 | E1]; [|left; exact E1].
    right. intro E2. apply H. split; assumption.
Qed.

Lemma In_deleteLinks (id school : string) (rows : list LinkRow) (r : LinkRow) :
  In r (deleteLinks id school rows)
  <-> In r rows /\ ~ (lr_student_id r = id /\ lr_school_id r = school).
Proof.
  unfold deleteLinks.
  rewrite filter_In, negb_true_iff, andb_false_iff, !String.eqb_neq.
  split; intros [Hin H]; split; try exact Hin.
  - intros [H1 H2]. destruct H; contradiction.
  - destruct (String.eqb_spec (lr_student_id r) id) as [E1 | E1]; [|left; exact E1].
    right. intro E2. apply H. split; assumption.
Qed.

(** What a confirmation does to the two tables: nothing, or the
    removal of the rows of the student of the dialog in the page's
    school, for each table the backend answered [deleted] for. *)
Lemma confirmDelete_tables
      (schoolId : option string) (linksAnswer studentAnswer : DeleteAnswer)
      (p : Page) (db : Db) :
  let db' := snd (confirmDelete schoolId linksAnswer studentAnswer p db) in
  (students db' = students db /\ student_fee_types db' = student_fee_types db)
  \/ exists stu school,
       deleteStudent p = Some stu
       /\ schoolId = Some school
       /\ confirmDeleteName p = sd_name stu
       /\ (students db' = students db
           \/ students db' = deleteStudentRows (sd_id stu) school (students db))
       /\ (student_fee_types db' = student_fee_types db
           \/ student_fee_types db'
              = deleteLinks (sd_id stu) school (student_fee_types db)).
Proof.
  cbv zeta. unfold confirmDelete.
  destruct (deleteStudent p) as [stu|]; [|left; split; reflexivity].
  destruct schoolId as [[|c sid]|];
    try (destruct (String.eqb (confirmDeleteName p) (sd_name stu));
         left; split; reflexivity).
  destruct (String.eqb_spec (confirmDeleteName p) (sd_name stu)) as [Hname | Hname];
    [|left; split; reflexivity].
  right. exists stu, (String c sid).
  split; [reflexivity|]. split; [reflexivity|]. split; [exact Hname|].
  cbv zeta.
  destruct linksAnswer, studentAnswer; cbn [snd students student_fee_types];
    split; (left; reflexivity) || (right; reflexivity).
Qed.

(** X17: confirming a deletion never adds a row and never removes a row
    of another student or another school, whatever the backend answers:
    a student row or a link row is gone afterwards only if the typed
    name equals the name of the student of the dialog, the page has a
    school, and the row is that student's in that school. *)
Theorem deletion_is_confined
        (schoolId : option string) (linksAnswer studentAnswer : DeleteAnswer)
        (p : Page) (db : Db) :
  let db' := snd (confirmDelete schoolId linksAnswer studentAnswer p db) in
  (forall r, In r (students db') -> In r (students db))
  /\ (forall r, In r (student_fee_types db') -> In r (student_fee_types db))
  /\ (forall r, In r (students db) -> ~ In r (students db') ->
        exists stu, deleteStudent p = Some stu
                    /\ confirmDeleteName p = sd_name stu
                    /\ sd_id r = sd_id stu
                    /\ schoolId = Some (sd_school_id r))
  /\ (forall r, In r (student_fee_types db) -> ~ In r (student_fee_types db') ->
        exists stu, deleteStudent p = Some stu
                    /\ confirmDeleteName p = sd_name stu
                    /\ lr_student_id r = sd_id stu
                    /\ schoolId = Some (lr_school_id r)).
Proof.
  cbv zeta.
  destruct (confirmDelete_tables schoolId linksAnswer studentAnswer p db)
    as [[Hs Hl] | (stu & school & Hstu & Hschool & Hname & Hs & Hl)].
  - rewrite Hs, Hl. repeat split; intros; tauto.
  - split; [|split; [|split]].
    + intros r Hin. destruct Hs as [Hs | Hs]; rewrite Hs in Hin; [exact Hin|].
      apply In_deleteStudentRows in Hin. apply Hin.
    + intros r Hin. destruct Hl as [Hl | Hl]; rewrite Hl in Hin; [exact Hin|].
      apply In_deleteLinks in Hin. apply Hin.
    + intros r Hin Hgone. exists stu.
      destruct Hs as [Hs | Hs]; rewrite Hs in Hgone; [contradiction|].
      rewrite In_deleteStudentRows in Hgone.
      destruct (String.eqb_spec (sd_id r) (sd_id stu)) as [E1 | E1];
        [destruct (String.eqb_spec (sd_school_id r) school) as [E2 | E2]|].
      * subst school. repeat split; assumption.
      * exfalso. apply Hgone. split; [exact Hin | intros [_ H]; contradiction].
      * exfalso. apply Hgone. split; [exact Hin | intros [H _]; contradiction].
    + intros r Hin Hgone. exists stu.
      destruct Hl as [Hl | Hl]; rewrite Hl in Hgone; [contradiction|].
      rewrite In_deleteLinks in Hgone.
      destruct (String.eqb_spec (lr_student_id r) (sd_id stu)) as [E1 | E1];
        [destruct (String.eqb_spec (lr_school_id r) school) as [E2 | E2]|].
      * subst school. repeat split; assumption.
      * exfalso. apply Hgone. split; [exact Hin | intros [_ H]; contradiction].
      * exfalso. apply Hgone. split; [exact Hin | intros [H _]; contradiction].
Qed.

Lemma deletion_is_confined_witness :
  exists stu,
    deleteStudent (deletionPage "Anil Rao") = Some stu
    /\ confirmDeleteName (deletionPage "Anil Rao") = sd_name stu
    /\ "stu-1"%string = sd_id stu
    /\ Some "school-1"%string = Some "school-1"%string.
Proof.
  apply (proj1 (proj2 (proj2
           (deletion_is_confined (Some "school-1"%string) deleted deleted
              (deletionPage "Anil Rao") registryDb)))
           {| sd_id := "stu-1"; sd_name := "Anil Rao"; sd_school_id := "school-1" |}).
  - left. reflexivity.
  - intros [H | []]. discriminate H.
Defined.

(** X22: a student of another school cannot be deleted through the
    dialog: when the dialog was empty before [openDeleteModal] and the
    student it holds is the one [openDeleteModal] left there, every
    student row removed by the confirmation is a row of the student the
    dialog was opened for, and that student belongs to the page's
    school. *)
Theorem dialog_deletes_in_own_school
        (schoolId : option string) (student : StudentDisplay)
        (linksAnswer studentAnswer : DeleteAnswer)
        (before p : Page) (db : Db) (r : StudentDisplay) :
  deleteStudent before = None ->
  deleteStudent p = deleteStudent (openDeleteModal schoolId student before) ->
  In r (students db) ->
  ~ In r (students (snd (confirmDelete schoolId linksAnswer studentAnswer p db))) ->
  sd_id r = sd_id student
  /\ sd_school_id r = sd_school_id student
  /\ schoolId = Some (sd_school_id student).
Proof.
  intros Hempty Hopened Hin Hgone.
  destruct (confirmDelete_tables schoolId linksAnswer studentAnswer p db)
    as [[Hs _] | (stu & school & Hstu & Hschool & _ & Hs & _)].
  - rewrite Hs in Hgone. contradiction.
  - destruct Hs as [Hs | Hs]; rewrite Hs in Hgone; [contradiction|].
    rewrite In_deleteStudentRows in Hgone.
    assert (Hrow : sd_id r = sd_id stu /\ sd_school_id r = school).
    { destruct (String.eqb_spec (sd_id r) (sd_id stu)) as [E1 | E1];
        [destruct (String.eqb_spec (sd_school_id r) school) as [E2 | E2]|].
      - split; assumption.
      - exfalso. apply Hgone. split; [exact Hin | intros [_ H]; contradiction].
      - exfalso. apply Hgone. split; [exact Hin | intros [H _]; contradiction]. }
    destruct Hrow as [Hid Hsch].
    rewrite Hstu in Hopened. unfold openDeleteModal in Hopened.
    rewrite Hschool in Hopened.
    destruct (String.eqb_spec (sd_school_id student) school) as [E | E];
      cbn [deleteStudent] in Hopened.
    + injection Hopened as ->. subst school.
      split; [exact Hid|]. split; [symmetry; exact E|].
      rewrite Hschool, E. reflexivity.
    + rewrite Hempty in Hopened. discriminate Hopened.
Qed.

Lemma dialog_deletes_in_own_school_witness :
  "stu-1"%string = "stu-1"%string
  /\ "school-1"%string = "school-1"%string
  /\ Some "school-1"%string = Some "school-1"%string.
Proof.
  apply (dialog_deletes_in_own_school (Some "school-1"%string)
           {| sd_id := "stu-1"; sd_name := "Anil Rao"; sd_school_id := "school-1" |}
           deleted deleted
           {| deleteModalOpen := false; deleteStudent := None;
              confirmDeleteName := ""; isSubmitting := false; toasts := [] |}
           (deletionPage "Anil Rao") registryDb
           {| sd_id := "stu-1"; sd_name := "Anil Rao"; sd_school_id := "school-1" |}).
  - reflexivity.
  - reflexivity.
  - left. reflexivity.
  - intros [H | []]. discriminate H.
Defined.

End RegistrationForm.

(** ** The dashboard *)

Lemma text_differs (a b : string) : String.eqb a b = false -> a <> b.
Proof. apply String.eqb_neq. Qed.

(** X18: the outstanding-fees view lists exactly the students who owe
    more than 0.009, in their order; none of them is labelled [Paid],
    and when the payments of a listed student do not sum to a negative
    amount the label is [Partial] or [Unpaid]. *)
Theorem outstanding_view_lists_owing (l : list Dashboard.StudentFees) :
  Dashboard.outstandingRows (Some l)
  = map Dashboard.detailRow
        (filter (fun s => Qltb (9 # 1000) (Dashboard.outstandingAmount s)) l)
  /\ forall r, In r (Dashboard.outstandingRows (Some l)) ->
       9 # 1000 < Dashboard.outstanding r
       /\ Dashboard.status r <> "Paid"%string
       /\ (0 <= Dashboard.paid r ->
           Dashboard.status r = "Partial"%string
           \/ Dashboard.status r = "Unpaid"%string).
Proof.
  split.
  - unfold Dashboard.outstandingRows.
    induction l as [|s l IH]; [reflexivity|]. simpl.
    destruct (Qltb (9 # 1000) (Dashboard.outstandingAmount s)); simpl;
      rewrite IH; reflexivity.
  - intros r Hr. unfold Dashboard.outstandingRows in Hr.
    apply filter_In in Hr. destruct Hr as [Hr Howing].
    apply in_map_iff in Hr. destruct Hr as (s & <- & _).
    revert Howing. unfold Dashboard.detailRow.
    cbn [Dashboard.outstanding Dashboard.status Dashboard.paid].
    unfold Dashboard.outstandingAmount, Dashboard.studentStatus. cbv zeta.
    generalize (or_zero (Dashboard.total_fees s))
               (Dashboard.totalPaid (Dashboard.payments s)).
    intros F P Howing. apply Qltb_lt in Howing.
    split; [exact Howing|].
    destruct (Qle_bool F (9 # 1000)) eqn:HF;
      [|destruct (Qle_bool F P) eqn:HFP; [|destruct (Qltb 0 P) eqn:HP]];
      reflect_cmp; (split; [|intro Hpaid]);
      try (apply text_differs; reflexivity);
      try (left; reflexivity); try (right; reflexivity);
      exfalso; lra.
Qed.

Lemma outstanding_view_lists_owing_witness :
  Dashboard.status (Dashboard.detailRow (feesOf (Some 1400) [500; 300]))
  = "Partial"%string
  \/ Dashboard.status (Dashboard.detailRow (feesOf (Some 1400) [500; 300]))
     = "Unpaid"%string.
Proof.
  apply (proj2 (outstanding_view_lists_owing [feesOf (Some 1400) [500; 300]])
               (Dashboard.detailRow (feesOf (Some 1400) [500; 300]))).
  - left. reflexivity.
  - vm_compute. discriminate.
Defined.

(** X19: for the same fee total and the same amount paid, the dashboard
    labels a student as the master ledger does in assigned view when the
    total is above 0.009; at or below it the dashboard always says
    [No Dues], where the ledger says [Paid] as soon as something was
    paid. *)
Theorem dashboard_label_matches_ledger
        (s : Dashboard.StudentFees) (stu : StudentWithPayments) :
  or_zero (Dashboard.total_fees s) == calculated_total_assigned_fees stu ->
  Dashboard.totalPaid (Dashboard.payments s) == paidOf stu ->
  (9 # 1000 < calculated_total_assigned_fees stu ->
   Dashboard.studentStatus s = statusText (getDynamicStatus total stu))
  /\ (calculated_total_assigned_fees stu <= 9 # 1000 ->
      Dashboard.studentStatus s = "No Dues"%string
      /\ (0 < paidOf stu -> getDynamicStatus total stu = paid)).
Proof.
  unfold Dashboard.studentStatus, getDynamicStatus. cbv zeta. cbn [feesToConsider].
  generalize (or_zero (Dashboard.total_fees s))
             (Dashboard.totalPaid (Dashboard.payments s))
             (calculated_total_assigned_fees stu) (paidOf stu).
  intros F' P' F P HF HP.
  destruct (Qle_bool F' (9 # 1000)) eqn:H1, (Qle_bool F' P') eqn:H2,
           (Qltb 0 P') eqn:H3, (Qle_bool F (9 # 1000)) eqn:H4,
           (Qle_bool F P) eqn:H5, (Qltb 0 P) eqn:H6, (Qltb P F) eqn:H7;
    cbn [andb statusText]; reflect_cmp;
    (split; [intro Habove | intro Hbelow; split; [|intro Hpos]]);
    try reflexivity; exfalso; lra.
Qed.

Lemma dashboard_label_matches_ledger_witness :
  Dashboard.studentStatus (feesOf (Some 1400) [500; 300])
  = statusText (getDynamicStatus total (ledgerStudent 1400 900 (Some 800))).
Proof.
  apply (dashboard_label_matches_ledger (feesOf (Some 1400) [500; 300])
           (ledgerStudent 1400 900 (Some 800))).
  - reflexivity.
  - reflexivity.
  - reflexivity.
Defined.

(** ** The reference date *)

Lemma ascii_compare_refl (x : ascii) : Ascii.compare x x = Eq.
Proof. unfold Ascii.compare. apply N.compare_refl. Qed.

Lemma string_compare_le_trans (a : string) : forall b c,
  String.compare a b <> Gt -> String.compare b c <> Gt ->
  String.compare a c <> Gt.
Proof.
  induction a as [|x a IH]; intros [|y b] [|z c]; simpl;
    try congruence; try discriminate.
  destruct (Ascii.compare x y) eqn:Exy; try congruence;
    destruct (Ascii.compare y z) eqn:Eyz; try congruence.
  - apply Ascii.compare_eq_iff in Exy, Eyz. subst y z.
    rewrite ascii_compare_refl. apply IH.
  - apply Ascii.compare_eq_iff in Exy. subst y. rewrite Eyz. discriminate.
  - apply Ascii.compare_eq_iff in Eyz. subst z. rewrite Exy. discriminate.
  - assert (L : Ascii.compare x z = Lt).
    { unfold Ascii.compare in *. apply N.compare_lt_iff.
      apply (N.lt_trans _ (N_of_ascii y)); apply N.compare_lt_iff; assumption. }
    rewrite L. discriminate.
Qed.

Lemma string_leb_trans (a b c : string) :
  String.leb a b = true -> String.leb b c = true -> String.leb a c = true.
Proof.
  unfold String.leb. intros Hab Hbc.
  assert (H : String.compare a c <> Gt).
  { apply (string_compare_le_trans a b c).
    - destruct (String.compare a b); congruence.
    - destruct (String.compare b c); congruence. }
  destruct (String.compare a c); congruence.
Qed.

Lemma countsAsDue_later (t1 t2 : string) (sft : StudentFeeType) :
  String.leb t1 t2 = true ->
  countsAsDue t1 sft = true -> countsAsDue t2 sft = true.
Proof.
  intro Hle. unfold countsAsDue.
  destruct (fee_type sft) as [ft|]; [|exact (fun H => H)].
  destruct (str_or_null (scheduled_date ft)) as [d|]; [|exact (fun H => H)].
  intro Hd. apply (string_leb_trans d t1 t2); assumption.
Qed.

Lemma sum_over_more (f : StudentFeeType -> Q) (p q : StudentFeeType -> bool)
      (l : list StudentFeeType) :
  (forall x, In x l -> 0 <= f x) ->
  (forall x, p x = true -> q x = true) ->
  sumQ (map f (filter p l)) <= sumQ (map f (filter q l)).
Proof.
  intros Hpos Hsub. induction l as [|x l IH]; simpl; [apply Qle_refl|].
  assert (IH' : sumQ (map f (filter p l)) <= sumQ (map f (filter q l))).
  { apply IH. intros y Hy. apply Hpos. right. exact Hy. }
  assert (Hx : 0 <= f x) by (apply Hpos; left; reflexivity).
  destruct (p x) eqn:Ep.
  - rewrite (Hsub x Ep). simpl. lra.
  - destruct (q x); simpl; lra.
Qed.

(** X21: the total assigned of a student does not depend on the
    reference date; a line counted as due on a date is counted as due on
    every later date (dates compared as the code compares them); and
    when no line has a negative net payable the total due on a later
    date is at least the total due on an earlier one. *)
Theorem due_total_grows_with_date
        (earlier later : string) (sfts : option (list StudentFeeType)) :
  calculated_total_assigned_fees_for_student (resolveFees earlier sfts)
  == calculated_total_assigned_fees_for_student (resolveFees later sfts)
  /\ (String.leb earlier later = true ->
      (forall sft, countsAsDue earlier sft = true -> countsAsDue later sft = true)
      /\ ((forall l sft, sfts = Some l -> In sft l ->
                         0 <= netPayableForThisFee sft) ->
          calculated_due_fees_this_moment (resolveFees earlier sfts)
          <= calculated_due_fees_this_moment (resolveFees later sfts))).
Proof.
  split.
  - destruct sfts as [l|]; [|reflexivity].
    rewrite !resolve_total. reflexivity.
  - intro Hle. split.
    + intros sft. apply countsAsDue_later. exact Hle.
    + intro Hpos. destruct sfts as [l|]; [|apply Qle_refl].
      rewrite !resolve_due. apply sum_over_more.
      * intros x Hx. apply (Hpos l x eq_refl Hx).
      * intros x. apply countsAsDue_later. exact Hle.
Qed.

Lemma due_total_grows_with_date_witness :
  calculated_due_fees_this_moment (resolveFees "2024-06-01" (Some scenarioLines))
  <= calculated_due_fees_this_moment (resolveFees "2025-06-01" (Some scenarioLines)).
Proof.
  apply (proj2 (due_total_grows_with_date "2024-06-01" "2025-06-01"
                  (Some scenarioLines))).
  - reflexivity.
  - intros l sft Hl Hin. injection Hl as <-.
    destruct Hin as [<- | [<- | []]]; vm_compute; discriminate.
Defined.

(** * Sums in double precision *)

Lemma roundDouble_compat (x y : Q) :
  x == y -> Doubles.roundDouble x == Doubles.roundDouble y.
Proof.
  intro H. unfold Doubles.roundDouble.
  rewrite (Qred_complete x y H). reflexivity.
Qed.

(** [roundDouble] on known values: 0.1 is read as
    3602879701896397 / 2^55; a number half way between two doubles goes
    to the one with the even significand; the smallest positive double
    is [2 ^ -1074] and half of it rounds to 0. *)
Example roundDouble_values :
  Doubles.roundDouble (1 # 10) == 3602879701896397 # 36028797018963968
  /\ Doubles.roundDouble 9007199254740993 == 9007199254740992
  /\ Doubles.roundDouble 9007199254740995 == 9007199254740996
  /\ Doubles.roundDouble (- (1 # 10)) == - (3602879701896397 # 36028797018963968)
  /\ Doubles.roundDouble (1 # Z.to_pos (2 ^ 1074)) == 1 # Z.to_pos (2 ^ 1074)
  /\ Doubles.roundDouble (1 # Z.to_pos (2 ^ 1075)) == 0
  /\ Doubles.roundDouble (3 # Z.to_pos (2 ^ 1075)) == 2 # Z.to_pos (2 ^ 1074).
Proof.
  repeat split; vm_compute; reflexivity.
Qed.

Section RoundedSums.

Variable round : Q -> Q.

Lemma fold_over_map {A : Type} (f : A -> Q) (l : list A) : forall acc,
  fold_left (fun sum x => round (sum + f x)) l acc
  = fold_left (fun sum a => round (sum + a)) (map f l) acc.
Proof.
  induction l as [|x l IH]; intro acc; simpl; [reflexivity | apply IH].
Qed.

Lemma rounded_total (todayISO : string) (l : list StudentFeeType) : forall acc,
  calculated_total_assigned_fees_for_student
    (fold_left (Rounded.resolveStep round todayISO) l acc)
  = fold_left (fun sum a => round (sum + a))
              (map (Rounded.netPayableForThisFee round) l)
              (calculated_total_assigned_fees_for_student acc).
Proof.
  induction l as [|sft l IH]; intro acc; [reflexivity|].
  cbn [fold_left map]. rewrite IH. reflexivity.
Qed.

Lemma rounded_due (todayISO : string) (l : list StudentFeeType) : forall acc,
  calculated_due_fees_this_moment
    (fold_left (Rounded.resolveStep round todayISO) l acc)
  = fold_left (fun sum a => round (sum + a))
              (map (Rounded.netPayableForThisFee round)
                   (filter (countsAsDue todayISO) l))
              (calculated_due_fees_this_moment acc).
Proof.
  induction l as [|sft l IH]; intro acc; [reflexivity|].
  cbn [fold_left filter]. rewrite IH. unfold Rounded.resolveStep.
  cbn [calculated_due_fees_this_moment].
  destruct (countsAsDue todayISO sft); reflexivity.
Qed.

Lemma rounded_details (todayISO : string) (l : list StudentFeeType) : forall acc,
  allFeeDetailsDisplay (fold_left (Rounded.resolveStep round todayISO) l acc)
  = allFeeDetailsDisplay acc ++ map (Rounded.detailOf round) l.
Proof.
  induction l as [|sft l IH]; intro acc.
  - symmetry. apply app_nil_r.
  - cbn [fold_left map]. rewrite IH. unfold Rounded.resolveStep.
    cbn [allFeeDetailsDisplay]. rewrite <- app_assoc. reflexivity.
Qed.

Hypothesis round_compat : forall x y, x == y -> round x == round y.

(** When no addition on the way rounds, the running sum is the sum. *)
Lemma runningSum_exact (l : list Q) :
  (forall k, (1 <= k <= List.length l)%nat ->
             round (sumQ (firstn k l)) == sumQ (firstn k l)) ->
  runningSum round l == sumQ l.
Proof.
  induction l as [|a l IH] using rev_ind; intro Hexact; [reflexivity|].
  unfold runningSum in *. rewrite fold_left_app. cbn [fold_left].
  assert (Hprefix : fold_left (fun sum a0 => round (sum + a0)) l 0 == sumQ l).
  { apply IH. intros k Hk.
    assert (E : firstn k (l ++ [a]) = firstn k l).
    { rewrite firstn_app.
      replace (k - List.length l)%nat with O by lia.
      simpl. apply app_nil_r. }
    rewrite <- E. apply Hexact. rewrite length_app. simpl. lia. }
  assert (Hwhole : round (sumQ (l ++ [a])) == sumQ (l ++ [a])).
  { specialize (Hexact (List.length (l ++ [a]))).
    rewrite firstn_all in Hexact. apply Hexact.
    rewrite length_app. simpl. lia. }
  rewrite <- Hwhole. apply round_compat.
  rewrite Hprefix, sumQ_app. simpl. ring.
Qed.

End RoundedSums.

(** With no rounding the loops are the exact ones. *)
Lemma unrounded_resolver (todayISO : string) (sfts : option (list StudentFeeType)) :
  Rounded.resolveFees (fun x => x) todayISO sfts = resolveFees todayISO sfts.
Proof.
  destruct sfts as [l|]; [|reflexivity].
  unfold Rounded.resolveFees, resolveFees. generalize noTotals.
  induction l as [|sft l IH]; intro acc; simpl; [reflexivity|].
  rewrite IH. reflexivity.
Qed.

Lemma unrounded_payments (ps : option (list Payment)) :
  Rounded.totalPaidOf (fun x => x) ps = totalPaidOf ps.
Proof. reflexivity. Qed.

(** C6, as stated, fails: the aggregate of two payments of 0.1 and 0.2
    is 0.30000000000000004 (1351079888211149 / 2^52), not the sum of the
    two amounts. *)
Lemma payments_sum_is_rounded :
  Rounded.totalPaidOf Doubles.roundDouble (Some [payment oneTenth; payment twoTenths])
  == 1351079888211149 # 4503599627370496
  /\ ~ Rounded.totalPaidOf Doubles.roundDouble
         (Some [payment oneTenth; payment twoTenths])
       == oneTenth + twoTenths.
Proof.
  split.
  - vm_compute. reflexivity.
  - vm_compute. discriminate.
Qed.

(** C6 (amended): for every sequence of payments the payment aggregator
    returns the running sum of their amounts: the amounts added one
    after the other from 0, each addition rounded to the nearest double;
    the result is the exact sum whenever none of these additions rounds.
    It returns 0 for the empty (and for an absent) sequence, and
    payments of 500 and 300 aggregate to 800.  The dashboard's detail
    view computes the same figure. *)
Theorem payments_running_sum (round : Q -> Q) :
  (forall x y, x == y -> round x == round y) ->
  (forall ps, Rounded.totalPaidOf round (Some ps)
              == runningSum round (map amount_paid ps))
  /\ (forall ps,
        (forall k, (1 <= k <= List.length ps)%nat ->
                   round (sumQ (firstn k (map amount_paid ps)))
                   == sumQ (firstn k (map amount_paid ps))) ->
        Rounded.totalPaidOf round (Some ps) == sumQ (map amount_paid ps))
  /\ Rounded.totalPaidOf round (Some []) = 0
  /\ Rounded.totalPaidOf round None = 0
  /\ (round 500 == 500 -> round 800 == 800 ->
      Rounded.totalPaidOf round (Some [payment 500; payment 300]) == 800)
  /\ (forall ps, Rounded.dashboardTotalPaid round (Some ps)
                 == runningSum round (map Dashboard.amount_paid ps))
  /\ Rounded.dashboardTotalPaid round (Some []) = 0
  /\ Rounded.dashboardTotalPaid round None = 0.
Proof.
  intro Hcompat.
  assert (Hrun : forall ps, Rounded.totalPaidOf round (Some ps)
                            == runningSum round (map amount_paid ps)).
  { intro ps. unfold Rounded.totalPaidOf, Rounded.sumPayments, Rounded.plus,
      runningSum. simpl option_map. rewrite or_zero_Some, fold_over_map.
    reflexivity. }
  split; [exact Hrun|]. split; [|split; [|split; [|split; [|split; [|split]]]]].
  - intros ps Hexact. rewrite Hrun. apply runningSum_exact.
    + exact Hcompat.
    + intros k Hk. apply Hexact. rewrite length_map in Hk. exact Hk.
  - reflexivity.
  - reflexivity.
  - intros H500 H800. rewrite Hrun. unfold runningSum.
    cbn [map fold_left amount_paid payment].
    assert (E1 : round (0 + 500) == 500).
    { rewrite (Hcompat (0 + 500) 500) by ring. exact H500. }
    rewrite (Hcompat (round (0 + 500) + 300) 800); [exact H800|].
    rewrite E1. ring.
  - intro ps. unfold Rounded.dashboardTotalPaid, Rounded.plus, runningSum.
    simpl option_map. rewrite or_zero_Some, fold_over_map. reflexivity.
  - reflexivity.
  - reflexivity.
Qed.

Lemma payments_running_sum_witness :
  Rounded.totalPaidOf Doubles.roundDouble (Some [payment 500; payment 300]) == 800.
Proof.
  destruct (payments_running_sum Doubles.roundDouble roundDouble_compat)
    as (_ & _ & _ & _ & Hscenario & _).
  apply Hscenario.
  - vm_compute. reflexivity.
  - vm_compute. reflexivity.
Defined.

(** C4 (amended): for every assignment the resolver computes net
    payable = assignedAmount - discount (not clamped to zero, rounded to
    the nearest double); totalAssigned is the running sum of net payable
    over all assignments, in their order, each addition rounded to the
    nearest double; totalDue is the running sum, in the same way, over
    exactly the assignments whose joined fee type is present and whose
    scheduled date is absent or, the dates being kept as YYYY-MM-DD
    text, on or before the reference date by calendar date.  A line
    scheduled exactly on the reference date counts as due; a line whose
    fee type is missing does not. *)
Theorem resolver_running_totals
        (round : Q -> Q) (today : CalendarDate) (l : list StudentFeeType) :
  wellFormedDate today ->
  let t := Rounded.resolveFees round (isoDate today) (Some l) in
  map net_payable (allFeeDetailsDisplay t)
  = map (fun sft => round (assignedAmount sft - discountOf sft)) l
  /\ calculated_total_assigned_fees_for_student t
     = runningSum round
         (map (fun sft => round (assignedAmount sft - discountOf sft)) l)
  /\ calculated_due_fees_this_moment t
     = runningSum round
         (map (fun sft => round (assignedAmount sft - discountOf sft))
              (filter (countsAsDue (isoDate today)) l))
  /\ (forall sft ft sched,
         fee_type sft = Some ft ->
         scheduled_date ft = option_map isoDate sched ->
         (forall d, sched = Some d -> wellFormedDate d) ->
         countsAsDue (isoDate today) sft = dueOn today sched)
  /\ (forall sft ft,
         fee_type sft = Some ft ->
         scheduled_date ft = Some (isoDate today) ->
         countsAsDue (isoDate today) sft = true)
  /\ (forall sft, fee_type sft = None -> countsAsDue (isoDate today) sft = false).
Proof.
  intros Htoday t. split; [|split; [|split; [|split; [|split]]]].
  - unfold t, Rounded.resolveFees. rewrite rounded_details. simpl.
    rewrite map_map. reflexivity.
  - unfold t, Rounded.resolveFees. rewrite rounded_total. reflexivity.
  - unfold t, Rounded.resolveFees. rewrite rounded_due. reflexivity.
  - intros sft ft sched Hft Hsched Hwf.
    apply (countsAsDue_calendar today sft ft sched); assumption.
  - intros sft ft Hft Hsched.
    rewrite (countsAsDue_calendar today sft ft (Some today)); try assumption.
    + apply onOrBefore_refl.
    + intros d Hd. injection Hd as <-. exact Htoday.
  - intros sft Hft. unfold countsAsDue. rewrite Hft. reflexivity.
Qed.

Lemma resolver_running_totals_witness :
  wellFormedDate june1 /\
  calculated_total_assigned_fees_for_student
    (Rounded.resolveFees Doubles.roundDouble (isoDate june1) (Some scenarioLines))
  = runningSum Doubles.roundDouble
      (map (fun sft => Doubles.roundDouble (assignedAmount sft - discountOf sft))
           scenarioLines) /\
  countsAsDue (isoDate june1)
    (feeLine (Some 500) (Some 0)
             (Some (feeTypeOn (Some 500) (Some (isoDate nextYear)))))
  = dueOn june1 (Some nextYear).
Proof.
  assert (W : wellFormedDate june1) by (unfold wellFormedDate; simpl; lia).
  split; [exact W|].
  destruct (resolver_running_totals Doubles.roundDouble june1 scenarioLines W)
    as (_ & Htotal & _ & Hdue & _).
  split; [exact Htotal|].
  apply (Hdue _ (feeTypeOn (Some 500) (Some (isoDate nextYear))) (Some nextYear)).
  - reflexivity.
  - reflexivity.
  - intros d Hd. injection Hd as <-. unfold wellFormedDate; simpl; lia.
Defined.

(** The scenario of two lines in double precision: 1400 assigned, 900
    due; and two due lines of 0.1 and 0.2 total 0.30000000000000004. *)
Example totals_in_doubles :
  calculated_total_assigned_fees_for_student
    (Rounded.resolveFees Doubles.roundDouble (isoDate june1) (Some scenarioLines))
  == 1400
  /\ calculated_due_fees_this_moment
       (Rounded.resolveFees Doubles.roundDouble (isoDate june1) (Some scenarioLines))
     == 900
  /\ calculated_total_assigned_fees_for_student
       (Rounded.resolveFees Doubles.roundDouble (isoDate june1) (Some tenthsLines))
     == 1351079888211149 # 4503599627370496.
Proof.
  repeat split; vm_compute; reflexivity.
Qed.

(** C9: an assignment whose joined fee type is missing adds its net
    payable (its assigned amount, or 0 when that is missing, less its
    discount) to totalAssigned where it stands among the student's
    assignments, and adds nothing to totalDue: totalDue is the same
    with and without the line, whatever the reference date is. *)
Theorem missing_fee_type_adds_to_total_only
        (round : Q -> Q) (todayISO : string)
        (before after : list StudentFeeType) (sft : StudentFeeType) :
  fee_type sft = None ->
  let net := round (match assigned_amount sft with
                    | Some a => a
                    | None => 0
                    end - or_zero (discount sft)) in
  let sofar := Rounded.resolveFees round todayISO (Some before) in
  let withLine := Rounded.resolveFees round todayISO (Some (before ++ [sft])) in
  calculated_total_assigned_fees_for_student withLine
  = round (calculated_total_assigned_fees_for_student sofar + net)
  /\ calculated_due_fees_this_moment withLine
     = calculated_due_fees_this_moment sofar
  /\ calculated_total_assigned_fees_for_student
       (Rounded.resolveFees round todayISO (Some (before ++ sft :: after)))
     = fold_left (fun sum a => round (sum + a))
                 (map (Rounded.netPayableForThisFee round) after)
                 (round (calculated_total_assigned_fees_for_student sofar + net))
  /\ calculated_due_fees_this_moment
       (Rounded.resolveFees round todayISO (Some (before ++ sft :: after)))
     = calculated_due_fees_this_moment
         (Rounded.resolveFees round todayISO (Some (before ++ after))).
Proof.
  intros Hmissing. cbv zeta.
  assert (Hnd : countsAsDue todayISO sft = false).
  { unfold countsAsDue. rewrite Hmissing. reflexivity. }
  assert (Hnet : Rounded.netPayableForThisFee round sft
                 = round (match assigned_amount sft with
                          | Some a => a
                          | None => 0
                          end - or_zero (discount sft))).
  { unfold Rounded.netPayableForThisFee, Rounded.minus, assignedAmount, discountOf.
    rewrite Hmissing. destruct (assigned_amount sft); reflexivity. }
  unfold Rounded.resolveFees. rewrite <- Hnet.
  split; [|split; [|split]].
  - rewrite fold_left_app. reflexivity.
  - rewrite fold_left_app. cbn [fold_left]. unfold Rounded.resolveStep at 1.
    cbn [calculated_due_fees_this_moment]. rewrite Hnd. reflexivity.
  - rewrite fold_left_app. cbn [fold_left]. rewrite rounded_total. reflexivity.
  - rewrite !rounded_due, !filter_app. cbn [filter]. rewrite Hnd. reflexivity.
Qed.

Lemma missing_fee_type_adds_to_total_only_witness :
  calculated_total_assigned_fees_for_student
    (Rounded.resolveFees Doubles.roundDouble "2024-06-01"
       (Some ([feeLine (Some 1000) None (Some (feeTypeOn (Some 1000) None))]
                ++ [feeLine (Some 250) (Some 50) None])))
  == 1200
  /\ calculated_due_fees_this_moment
       (Rounded.resolveFees Doubles.roundDouble "2024-06-01"
          (Some ([feeLine (Some 1000) None (Some (feeTypeOn (Some 1000) None))]
                   ++ [feeLine (Some 250) (Some 50) None])))
     == 1000.
Proof.
  destruct (missing_fee_type_adds_to_total_only Doubles.roundDouble "2024-06-01"
              [feeLine (Some 1000) None (Some (feeTypeOn (Some 1000) None))] []
              (feeLine (Some 250) (Some 50) None) eq_refl)
    as (Htotal & Hdue & _).
  rewrite Htotal, Hdue. split; vm_compute; reflexivity.
Defined.
